(** * wakatime-stats: a shallow embedding of [src/index.ts]

    The script reads its configuration from the process environment, fetches
    per-language coding time from the WakaTime API, locates (and retitles) the
    single file of a gist, renders a fixed-width text table and patches it into
    the gist.

    Modelling decisions, all local to this file:

    - A JavaScript [number] is an exact rational, extended with [NaN] and the
      two infinities that division by zero produces; zero is unsigned.  The
      source computes in binary64, so a property that depends on the value of
      a quotient or a product is stated where the two agree: durations for
      seconds below 2^53, where the floors of the source are the exact
      floors; percentages and glyph counts up to [rounding_slack], for
      snapshots [within_doubles].
    - A JavaScript string is a [string]; a character of the model stands for
      one code unit.  The bar glyphs are written as the literals of the source
      and are only ever counted as whole glyphs, never by [length].
    - [PROGRESS_STYLES] and [GIST_TITLES] are the own properties of the two
      object literals.  A key that names a member inherited from
      [Object.prototype] ([inherited]) finds that member in the source:
      [createProgressBar] models what follows, and the properties of
      [getGistTitle] and of the locator are stated for the other keys.
    - A thrown value is an [exn]; code that can throw returns a [result].
    - The asynchronous functions run in a small writer-and-exception monad
      that records, in order, the HTTP requests issued and the lines logged.
      The remote services are an oracle answering each request. *)

From Stdlib Require Import ZArith QArith Qround String Ascii List DecimalString.
From Stdlib Require Import Lia Lqa Bool.
Import ListNotations.

Local Open Scope string_scope.

(** ** Thrown values and fallible results *)

Inductive exn_kind := TypeError | RangeError | PlainError.

(** [new Error(message)], or a built-in error of the given kind. *)
Record exn := Exn { exn_kind_of : exn_kind; message : string }.

Inductive result (A : Type) :=
| Ok (a : A)
| Throw (e : exn).
Arguments Ok {A} a.
Arguments Throw {A} e.

Definition rbind {A B} (r : result A) (k : A -> result B) : result B :=
  match r with
  | Ok a => k a
  | Throw e => Throw e
  end.

(** [Array.prototype.map] with a callback that may throw: the elements are
    visited in order and the first exception ends the traversal. *)
Fixpoint mapR {A B} (f : A -> result B) (xs : list A) : result (list B) :=
  match xs with
  | [] => Ok []
  | x :: xs' =>
      rbind (f x) (fun y => rbind (mapR f xs') (fun ys => Ok (y :: ys)))
  end.

(** ** Strings *)

(** [s.repeat(n)] for a count that is already a natural number. *)
Fixpoint repeat_string (s : string) (n : nat) : string :=
  match n with
  | O => ""
  | S n' => s ++ repeat_string s n'
  end.

(** [s.padEnd(n)]: spaces are appended up to length [n]; a longer string is
    returned as it is. *)
Definition padEnd (n : nat) (s : string) : string :=
  s ++ repeat_string " " (n - String.length s).

(** [lines.join(sep)]. *)
Fixpoint join (sep : string) (lines : list string) : string :=
  match lines with
  | [] => ""
  | [l] => l
  | l :: rest => l ++ sep ++ join sep rest
  end.

Definition is_white_space (c : ascii) : bool :=
  match nat_of_ascii c with
  | 9%nat | 10%nat | 11%nat | 12%nat | 13%nat | 32%nat => true
  | _ => false
  end.

Fixpoint trimStart (s : string) : string :=
  match s with
  | String c s' => if is_white_space c then trimStart s' else s
  | EmptyString => ""
  end.

Fixpoint trimEnd (s : string) : string :=
  match s with
  | String c s' =>
      match trimEnd s' with
      | EmptyString => if is_white_space c then "" else String c ""
      | r => String c r
      end
  | EmptyString => ""
  end.

(** [s.trim()], for the ASCII white space that the strings trimmed here can
    hold. *)
Definition trim (s : string) : string := trimEnd (trimStart s).

Definition to_lower_ascii (c : ascii) : ascii :=
  let n := nat_of_ascii c in
  if andb (Nat.leb 65 n) (Nat.leb n 90) then ascii_of_nat (n + 32) else c.

(** [s.toLowerCase()], on ASCII letters. *)
Fixpoint toLowerCase (s : string) : string :=
  match s with
  | String c s' => String (to_lower_ascii c) (toLowerCase s')
  | EmptyString => ""
  end.

(** Template-literal rendering of an integer-valued number: its decimal
    digits (the form JavaScript uses below 10^21). *)
Definition Z_toString (z : Z) : string := NilZero.string_of_int (Z.to_int z).

(** Template-literal rendering of [process.env.X]. *)
Definition env_toString (v : option string) : string :=
  match v with
  | Some s => s
  | None => "undefined"
  end.

(** ** Numbers *)

Inductive number :=
| NaN
| PosInf
| NegInf
| Fin (q : Q).

Definition Qsgn (q : Q) : Z := Z.sgn (Qnum q).

Definition signed_inf (sign : Z) : number :=
  match sign with
  | Z0 => NaN
  | Zpos _ => PosInf
  | Zneg _ => NegInf
  end.

Definition number_sgn (x : number) : Z :=
  match x with
  | NaN => 0
  | PosInf => 1
  | NegInf => -1
  | Fin q => Qsgn q
  end.

(** [x / y] *)
Definition js_div (x y : number) : number :=
  match x, y with
  | NaN, _ | _, NaN => NaN
  | Fin a, Fin b =>
      if (Qsgn b =? 0)%Z then signed_inf (Qsgn a) else Fin (a / b)
  | Fin _, _ => Fin 0
  | _, Fin b => if (Qsgn b =? 0)%Z then x else signed_inf (number_sgn x * Qsgn b)
  | _, _ => NaN
  end.

(** [x * y] *)
Definition js_mul (x y : number) : number :=
  match x, y with
  | NaN, _ | _, NaN => NaN
  | Fin a, Fin b => Fin (a * b)
  | _, _ => signed_inf (number_sgn x * number_sgn y)
  end.

(** [x - y] *)
Definition js_sub (x y : number) : number :=
  match x, y with
  | NaN, _ | _, NaN => NaN
  | Fin a, Fin b => Fin (a - b)
  | PosInf, PosInf | NegInf, NegInf => NaN
  | PosInf, _ | _, NegInf => PosInf
  | NegInf, _ | _, PosInf => NegInf
  end.

(** [Math.floor] on a finite number. *)
Definition Math_floor (q : Q) : Z := Qfloor q.

(** Truncation toward zero. *)
Definition Qtrunc (q : Q) : Z := if (Qsgn q <? 0)%Z then Qceiling q else Qfloor q.

(** [a % b] on finite numbers, [b] nonzero: the remainder has the sign of the
    dividend. *)
Definition js_rem (a b : Q) : Q := a - b * inject_Z (Qtrunc (a / b)).

(** The nearest integer, a tie going toward plus infinity. *)
Definition round_half_up (q : Q) : Z := Qfloor (q + (1 # 2)).

(** [Math.round] *)
Definition Math_round (x : number) : number :=
  match x with
  | Fin q => Fin (inject_Z (round_half_up q))
  | _ => x
  end.

(** [String.prototype.repeat(count)]: the count is converted with
    ToIntegerOrInfinity ([NaN] becomes 0, a fraction is truncated); a negative
    or infinite count is a [RangeError].  The engine's limit on the length of
    a string is not modelled. *)
Definition String_repeat (s : string) (count : number) : result string :=
  match count with
  | NaN => Ok ""
  | PosInf => Throw (Exn RangeError "Invalid count value: Infinity")
  | NegInf => Throw (Exn RangeError "Invalid count value: -Infinity")
  | Fin q =>
      let n := Qtrunc q in
      if (n <? 0)%Z then
        Throw (Exn RangeError ("Invalid count value: " ++ Z_toString n))
      else Ok (repeat_string s (Z.to_nat n))
  end.

(** [x.toFixed(1)] for a finite non-negative [x]: the integer [n] with
    [n / 10] nearest to [x] (the larger on a tie), printed with the point
    before its last digit. *)
Definition toFixed1_nonneg (q : Q) : string :=
  let n := round_half_up (q * 10) in
  Z_toString (n / 10) ++ "." ++ Z_toString (n mod 10).

(** [x.toFixed(1)], for magnitudes below 10^21. *)
Definition toFixed1 (x : number) : string :=
  match x with
  | NaN => "NaN"
  | PosInf => "Infinity"
  | NegInf => "-Infinity"
  | Fin q =>
      if (Qsgn q <? 0)%Z then "-" ++ toFixed1_nonneg (- q) else toFixed1_nonneg q
  end.

(** ** Types (index.ts lines 5-28) *)

Record Language := { name : string; total_seconds : Q }.

Record WakaTimeStats := { languages : list Language }.

Record WakaTimeResponse := { stats_data : WakaTimeStats }.

Record SummaryResponse := { summary_data : list WakaTimeStats }.

Record GistFile := { filename : string; content : string }.

(** [files] lists the entries of the record in [Object.keys] order. *)
Record GistResponse := { files : list (string * GistFile) }.

(** ** Configuration (index.ts lines 30-50) *)

Record Env := {
  WAKATIME_TOKEN : option string;
  GIST_ID : option string;
  GH_TOKEN : option string;
  TIME_RANGE : option string;
  PROGRESS_STYLE : option string
}.

Definition baseUrl : string := "https://wakatime.com/api/v1/users/current".

Definition endpoints_stats (range : string) : string :=
  baseUrl ++ "/stats/" ++ range.

Definition endpoints_summaries (range : string) : string :=
  baseUrl ++ "/summaries?range=" ++ range.

Record ProgressStyle := { filled : string; empty : string; blocks : Z }.

Definition style_arrow : ProgressStyle :=
  {| filled := "▶"; empty := "▷"; blocks := 16 |}.
Definition style_hash : ProgressStyle :=
  {| filled := "#"; empty := "-"; blocks := 25 |}.
Definition style_default : ProgressStyle :=
  {| filled := "▰"; empty := "▱"; blocks := 14 |}.

(** [PROGRESS_STYLES[key]]; [None] is [undefined]. *)
Definition PROGRESS_STYLES (key : string) : option ProgressStyle :=
  if key =? "arrow" then Some style_arrow
  else if key =? "hash" then Some style_hash
  else if key =? "default" then Some style_default
  else None.

(** [GIST_TITLES[range]]; [None] is [undefined]. *)
Definition GIST_TITLES (range : string) : option string :=
  if range =? "yesterday" then Some "☕ Yesterday Coding Stats"
  else if range =? "last_7_days" then Some "☕ Last 7 Days Coding Stats"
  else if range =? "last_30_days" then Some "☕ Last 30 Days Coding Stats"
  else if range =? "last_year" then Some "☕ Last Year Coding Stats"
  else None.

(** The names that every object literal inherits from [Object.prototype];
    indexing a literal with one of them yields a function (for [__proto__],
    the prototype itself), which is truthy and is not a string. *)
Definition Object_prototype_names : list string :=
  ["constructor"; "__defineGetter__"; "__defineSetter__"; "hasOwnProperty";
   "__lookupGetter__"; "__lookupSetter__"; "isPrototypeOf";
   "propertyIsEnumerable"; "toString"; "valueOf"; "__proto__";
   "toLocaleString"].

Definition inherited (key : string) : bool :=
  existsb (String.eqb key) Object_prototype_names.

(** [a || b] on an optional string: [undefined] and the empty string are
    falsy. *)
Definition or_string (a : option string) (b : string) : string :=
  match a with
  | Some s => if s =? "" then b else s
  | None => b
  end.

(** [(process.env.TIME_RANGE as TimeRange) || 'last_7_days'] (lines 91, 120). *)
Definition timeRange_of (env : Env) : string :=
  or_string (TIME_RANGE env) "last_7_days".

(** ** Pure helpers (index.ts lines 58-86) *)

(** line 59 *)
Definition getWakaTimeEndpoint (range : string) : string :=
  if range =? "yesterday" then endpoints_summaries "yesterday"
  else endpoints_stats range.

(** line 62, for a range that is not [inherited]. *)
Definition getGistTitle (range : string) : string :=
  or_string (GIST_TITLES range) "☕ Last 7 Days Coding Stats".

(** lines 65-69 *)
Definition formatDuration (seconds : Q) : string :=
  let hours := Math_floor (seconds / 3600) in
  let minutes := Math_floor (js_rem seconds 3600 / 60) in
  let text :=
    trim ((if (hours =? 0)%Z then "" else Z_toString hours ++ " hrs ") ++
          (if (minutes =? 0)%Z then "" else Z_toString minutes ++ " mins")) in
  if text =? "" then "0 mins" else text.

(** The style selected on line 73. *)
Definition selected_style (env : Env) : option ProgressStyle :=
  PROGRESS_STYLES
    (or_string (option_map toLowerCase (PROGRESS_STYLE env)) "default").

(** The key of line 73. *)
Definition style_key (env : Env) : string :=
  or_string (option_map toLowerCase (PROGRESS_STYLE env)) "default".

(** lines 72-76; reading a property of [undefined] is a [TypeError].  With a
    key that is no style, [style] is [undefined] and line 74 throws on
    [style.blocks]; with an inherited key [style] is a function or an object
    without [blocks] and [filled], the count is [NaN] and line 75 throws on
    [style.filled.repeat]. *)
Definition createProgressBar (env : Env) (percentage : number) : result string :=
  match selected_style env with
  | None =>
      Throw (Exn TypeError
               (if inherited (style_key env) then
                  "Cannot read properties of undefined (reading 'repeat')"
                else
                  "Cannot read properties of undefined (reading 'blocks')"))
  | Some style =>
      let filled_count :=
        Math_round (js_mul (js_div percentage (Fin 100))
                           (Fin (inject_Z (blocks style)))) in
      rbind (String_repeat (filled style) filled_count) (fun bar_filled =>
      rbind (String_repeat (empty style)
               (js_sub (Fin (inject_Z (blocks style))) filled_count))
            (fun bar_empty =>
      Ok (bar_filled ++ bar_empty)))
  end.

(** [stats.languages.reduce((sum, l) => sum + l.total_seconds, 0)] (line 83). *)
Definition total_of (stats : WakaTimeStats) : Q :=
  fold_left (fun sum l => sum + total_seconds l) (languages stats) 0.

(** line 83 *)
Definition percentage_of (stats : WakaTimeStats) (lang : Language) : number :=
  js_mul (js_div (Fin (total_seconds lang)) (Fin (total_of stats))) (Fin 100).

(** The callback of [map] (lines 82-85). *)
Definition formatLine (env : Env) (stats : WakaTimeStats) (lang : Language)
  : result string :=
  let percentage := percentage_of stats lang in
  rbind (createProgressBar env percentage) (fun bar =>
  Ok (padEnd 10 (name lang) ++ " " ++
      padEnd 14 (formatDuration (total_seconds lang)) ++ " " ++
      bar ++ "  " ++ toFixed1 percentage ++ "%")).

Definition newline : string := String (ascii_of_nat 10) "".

(** lines 79-86 *)
Definition formatStats (env : Env) (stats : WakaTimeStats) : result string :=
  rbind (mapR (formatLine env stats) (firstn 5 (languages stats)))
        (fun lines => Ok (join newline lines)).

(** ** Asynchronous code: requests, console, exceptions *)

Record FilePatch := { patch_filename : option string; patch_content : string }.

Definition headers := list (string * string).

(** An [axios] call: the method, the URL, the [files] object of the body (one
    entry per key) and the headers. *)
Inductive request :=
| GET (url : string) (hs : headers)
| PATCH (url : string) (body_files : list (string * FilePatch)) (hs : headers).

Inductive log_line :=
| log_info_line (msg : string)      (* log.info, line 54 *)
| log_error_line (msg : string)     (* log.error, line 55 *)
| console_log_error (e : exn).      (* console.log({ error }), line 107 *)

(** What a run does that the outside can see. *)
Inductive event :=
| Request (r : request)
| Console (l : log_line).

(** The remote services: the outcome of each request.  A rejected promise
    carries the thrown value. *)
Record Remote := {
  wakatime_stats : string -> result WakaTimeResponse;
  wakatime_summaries : string -> result SummaryResponse;
  github_get : string -> result GistResponse;
  github_patch : string -> list (string * FilePatch) -> result unit
}.

(** An [async] function: how it settles, and the events it caused, oldest
    first. *)
Definition Async (A : Type) : Type := (result A * list event)%type.

Definition settled {A} (c : Async A) : result A := fst c.
Definition events {A} (c : Async A) : list event := snd c.

Definition ret {A} (a : A) : Async A := (Ok a, []).

Definition throw {A} (e : exn) : Async A := (Throw e, []).

Definition bind {A B} (c : Async A) (k : A -> Async B) : Async B :=
  match c with
  | (Ok a, t) => let (r, t') := k a in (r, (t ++ t')%list)
  | (Throw e, t) => (Throw e, t)
  end.

(** [try { body } catch (error) { handler }] *)
Definition try_catch {A} (body : Async A) (handler : exn -> Async A) : Async A :=
  match body with
  | (Ok a, t) => (Ok a, t)
  | (Throw e, t) => let (r, t') := handler e in (r, (t ++ t')%list)
  end.

(** A synchronous computation inside an [async] function. *)
Definition lift {A} (r : result A) : Async A := (r, []).

Definition emit (l : log_line) : Async unit := (Ok tt, [Console l]).

(** Issue a request and await its outcome. *)
Definition await {A} (r : request) (outcome : result A) : Async A :=
  (outcome, [Request r]).

Declare Scope async_scope.
Delimit Scope async_scope with async.
Notation "x <- c ;; k" := (bind c (fun x => k))
  (at level 61, c at next level, right associativity) : async_scope.
Notation "c ;;; k" := (bind c (fun _ => k))
  (at level 61, right associativity) : async_scope.
Local Open Scope async_scope.

(** [error instanceof Error ? error.message : 'Unknown error']: every thrown
    value of the model is an [Error]. *)
Definition error_message (e : exn) : string := message e.

(** The requests among the events, and the [PATCH] requests among those. *)
Definition requests_of (t : list event) : list request :=
  flat_map (fun ev => match ev with Request r => [r] | Console _ => [] end) t.

Definition is_PATCH (r : request) : bool :=
  match r with
  | PATCH _ _ _ => true
  | GET _ _ => false
  end.

Definition writes_of (t : list event) : list request :=
  filter is_PATCH (requests_of t).

Section Script.

Variable env : Env.
Variable remote : Remote.

Definition gist_url : string :=
  "https://api.github.com/gists/" ++ env_toString (GIST_ID env).

Definition github_headers : headers :=
  [("Accept", "application/vnd.github+json");
   ("Authorization", "Bearer " ++ env_toString (GH_TOKEN env))].

Definition wakatime_headers : headers :=
  [("Authorization", "Basic " ++ env_toString (WAKATIME_TOKEN env))].

(** The outcome of the [axios.get] of line 94, with the payload typed by the
    endpoint: a [SummaryResponse] from the summaries endpoint, a
    [WakaTimeResponse] from the stats endpoint. *)
Definition wakatime_get (endpoint : string)
  : result (SummaryResponse + WakaTimeResponse) :=
  if timeRange_of env =? "yesterday" then
    rbind (wakatime_summaries remote endpoint) (fun d => Ok (inl d))
  else
    rbind (wakatime_stats remote endpoint) (fun d => Ok (inr d)).

(** lines 89-111.  The test [timeRange === 'yesterday'] of line 98 is the
    test that chose the endpoint, so it holds exactly when the payload is a
    [SummaryResponse]. *)
Definition fetchWakaTimeStats : Async (option WakaTimeStats) :=
  try_catch
    (let timeRange := timeRange_of env in
     let endpoint := getWakaTimeEndpoint timeRange in
     data <- await (GET endpoint wakatime_headers) (wakatime_get endpoint) ;;
     match data with
     | inl summaryData =>
         ret (Some {| languages :=
                        match summary_data summaryData with
                        | first :: _ => languages first
                        | [] => []
                        end |})
     | inr response => ret (Some (stats_data response))
     end)
    (fun error =>
       emit (console_log_error error) ;;;
       emit (log_error_line
               ("Failed to fetch WakaTime stats: " ++ error_message error)) ;;;
       ret None).

(** [data.files[key]] *)
Definition files_lookup (key : string) (fs : list (string * GistFile))
  : option GistFile :=
  option_map snd (find (fun kv => fst kv =? key) fs).

(** lines 114-146 *)
Definition fetchGistFilename : Async string :=
  try_catch
    (data <- await (GET gist_url github_headers) (github_get remote gist_url) ;;
     let timeRange := timeRange_of env in
     let newFilename := getGistTitle timeRange in
     match option_map fst (hd_error (files data)) with
     | None => throw (Exn PlainError "No files found in the gist")
     | Some oldFilename =>
         if oldFilename =? "" then
           throw (Exn PlainError "No files found in the gist")
         else
           (if negb (oldFilename =? newFilename) then
              match files_lookup oldFilename (files data) with
              | None =>
                  throw (Exn TypeError
                    "Cannot read properties of undefined (reading 'content')")
              | Some file =>
                  let body :=
                    [(oldFilename,
                      {| patch_filename := Some newFilename;
                         patch_content := content file |})] in
                  await (PATCH gist_url body github_headers)
                        (github_patch remote gist_url body)
              end
            else ret tt) ;;;
           ret newFilename
     end)
    (fun error =>
       let message := error_message error in
       emit (log_error_line
               ("Failed to fetch/update gist filename: " ++ message)) ;;;
       throw (Exn PlainError message)).

Definition placeholder : string := "No WakaTime stats available".

(** line 150 *)
Definition render (stats : option WakaTimeStats) : result string :=
  match stats with
  | Some s => formatStats env s
  | None => Ok placeholder
  end.

(** The request of lines 153-157. *)
Definition content_write (filename content : string) : request :=
  PATCH gist_url
        [(filename, {| patch_filename := None; patch_content := content |})]
        github_headers.

(** lines 149-162 *)
Definition updateGist (stats : option WakaTimeStats) (filename : string)
  : Async unit :=
  content <- lift (render stats) ;;
  try_catch
    (await (content_write filename content)
           (github_patch remote gist_url
              [(filename,
                {| patch_filename := None; patch_content := content |})]) ;;;
     emit (log_info_line "Gist updated successfully"))
    (fun error =>
       emit (log_error_line
               ("Failed to update gist: " ++ error_message error))).

(** lines 165-174.  The two promises handed to [Promise.all] share no
    state; the stats fetch, which never rejects, is listed first. *)
Definition main : Async unit :=
  try_catch
    (emit (log_info_line "Fetching WakaTime stats and gist filename...") ;;;
     stats <- fetchWakaTimeStats ;;
     filename <- fetchGistFilename ;;
     emit (log_info_line "Updating gist with latest stats...") ;;;
     updateGist stats filename)
    (fun error =>
       emit (log_error_line ("Operation failed: " ++ error_message error))).

End Script.

(** ** Where binary64 and exact arithmetic agree *)

(** 2^53: below it every whole number is a double, and the floors that
    [formatDuration] takes of quotients by 3600 and by 60 are exact. *)
Definition double_exact_bound : Q := 9007199254740992.




(** ** The specification's wording, for comparison with the code *)

(** The sum of [total_seconds] over a whole language list. *)
Fixpoint sum_seconds (ls : list Language) : Q :=
  match ls with
  | [] => 0
  | l :: ls' => total_seconds l + sum_seconds ls'
  end.

(** Duration text: the hours part when nonzero, the minutes part when
    nonzero, joined by a space; "0 mins" when there is neither. *)
Definition duration_parts (hours minutes : Z) : list string :=
  app (if (hours =? 0)%Z then [] else [Z_toString hours ++ " hrs"])
      (if (minutes =? 0)%Z then [] else [Z_toString minutes ++ " mins"]).

Definition duration_text (hours minutes : Z) : string :=
  match duration_parts hours minutes with
  | [] => "0 mins"
  | parts => join " " parts
  end.


(** The bar of a style with [n] filled glyphs. *)
Definition bar_of (style : ProgressStyle) (n : Z) : string :=
  repeat_string (filled style) (Z.to_nat n) ++
  repeat_string (empty style) (Z.to_nat (blocks style - n)).


(** A rendered line, given the style and the finite percentage [q] of the
    entry: the name padded to at least ten characters, the duration padded to
    at least fourteen, the bar, and the percentage with one decimal. *)
Definition line_of (style : ProgressStyle) (l : Language) (q : Q) : string :=
  padEnd 10 (name l) ++ " " ++
  padEnd 14 (formatDuration (total_seconds l)) ++ " " ++
  bar_of style (round_half_up (q / 100 * inject_Z (blocks style))) ++ "  " ++
  toFixed1_nonneg q ++ "%".


(** ** Vocabulary of the proofs *)

(** No character of [s] is white space. *)
Fixpoint no_white_space (s : string) : bool :=
  match s with
  | String c s' => negb (is_white_space c) && no_white_space s'
  | EmptyString => true
  end.

(** The last character of [s], if it has one. *)
Fixpoint last_char (s : string) : option ascii :=
  match s with
  | EmptyString => None
  | String c s' =>
      match last_char s' with
      | None => Some c
      | found => found
      end
  end.

(** ** Sample inputs *)

Definition sample_env (range style : option string) : Env :=
  {| WAKATIME_TOKEN := Some "waka_0123";
     GIST_ID := Some "8f1c";
     GH_TOKEN := Some "ghp_4567";
     TIME_RANGE := range;
     PROGRESS_STYLE := style |}.

Definition lang (n : string) (s : Q) : Language :=
  {| name := n; total_seconds := s |}.

Definition two_languages : WakaTimeStats :=
  {| languages := [lang "A" 3600; lang "B" 3600] |}.

Definition six_languages : WakaTimeStats :=
  {| languages := [lang "TypeScript" 5000; lang "Rust" 2500; lang "Go" 1000;
                   lang "CSS" 500; lang "HTML" 500; lang "JSON" 500] |}.


Definition one_file (key body : string) : GistResponse :=
  {| files := [(key, {| filename := key; content := body |})] |}.

(** A remote whose four services answer as given, whatever the request. *)
Definition sample_remote (stats : result WakaTimeResponse)
  (summaries : result SummaryResponse) (gist : result GistResponse)
  (patched : result unit) : Remote :=
  {| wakatime_stats := fun _ => stats;
     wakatime_summaries := fun _ => summaries;
     github_get := fun _ => gist;
     github_patch := fun _ _ => patched |}.

Definition network_error : exn := Exn PlainError "Network Error".

Definition default_env : Env := sample_env None None.

Definition hash_env : Env := sample_env None (Some "hash").

Definition yesterday_env : Env := sample_env (Some "yesterday") None.

(** The summaries endpoint answers with no summary at all. *)
Definition no_summary_remote : Remote :=
  sample_remote (Throw network_error) (Ok {| summary_data := [] |})
                (Ok (one_file "notes.txt" "")) (Ok tt).

(** The stats API is unreachable; the gist holds one file, already titled. *)
Definition stats_down_remote : Remote :=
  sample_remote (Throw network_error) (Throw network_error)
                (Ok (one_file "☕ Last 7 Days Coding Stats" "old text")) (Ok tt).

(** The gist has no file. *)
Definition empty_gist_remote : Remote :=
  sample_remote (Ok {| stats_data := two_languages |})
                (Ok {| summary_data := [] |}) (Ok {| files := [] |}) (Ok tt).

(** The gist holds one file under another name; every [PATCH] succeeds. *)
Definition untitled_gist_remote : Remote :=
  sample_remote (Ok {| stats_data := two_languages |})
                (Ok {| summary_data := [] |})
                (Ok (one_file "stats.txt" "old text")) (Ok tt).

(** The same gist, but every [PATCH] is rejected. *)
Definition read_only_gist_remote : Remote :=
  sample_remote (Ok {| stats_data := two_languages |})
                (Ok {| summary_data := [] |})
                (Ok (one_file "stats.txt" "old text")) (Throw network_error).

(** The stats API answers with two languages; the gist is already titled. *)
Definition titled_gist_remote : Remote :=
  sample_remote (Ok {| stats_data := two_languages |})
                (Ok {| summary_data := [] |})
                (Ok (one_file "☕ Last 7 Days Coding Stats" "old text")) (Ok tt).

(** The stats API answers with no language. *)
Definition idle_remote : Remote :=
  sample_remote (Ok {| stats_data := {| languages := [] |} |})
                (Ok {| summary_data := [] |})
                (Ok (one_file "☕ Last 7 Days Coding Stats" "old text")) (Ok tt).

(** Selectors outside their enumerations. *)
Definition odd_style_env : Env := sample_env None (Some "fancy").

Definition odd_range_env : Env := sample_env (Some "last_week") None.

(** ** The earlier script

    The repository also holds the script as it was before the time range and
    the bar style became configurable: one fixed endpoint, one fixed bar, no
    renaming of the gist file.  [formatDuration] is the same text in both and
    is shared. *)

Module Legacy.

Section Script.

Variable env : Env.
Variable remote : Remote.

Definition stats_url : string :=
  "https://wakatime.com/api/v1/users/current/stats/last_7_days".

(** lines 26-36 *)
Definition fetchWakaTimeStats : Async (option WakaTimeStats) :=
  try_catch
    (data <- await (GET stats_url (wakatime_headers env))
                   (wakatime_stats remote stats_url) ;;
     ret (Some (stats_data data)))
    (fun error =>
       emit (log_error_line
               ("Failed to fetch WakaTime stats: " ++ error_message error)) ;;;
       ret None).

(** lines 39-52 *)
Definition fetchGistFilename : Async string :=
  try_catch
    (data <- await (GET (gist_url env) (github_headers env))
                   (github_get remote (gist_url env)) ;;
     match option_map fst (hd_error (files data)) with
     | None => throw (Exn PlainError "No files found in the gist")
     | Some filename =>
         if filename =? "" then
           throw (Exn PlainError "No files found in the gist")
         else ret filename
     end)
    (fun error =>
       let message := error_message error in
       emit (log_error_line ("Failed to fetch gist filename: " ++ message)) ;;;
       throw (Exn PlainError message)).

(** lines 62-66 *)
Definition createProgressBar (percentage : number) : result string :=
  let blocks := 14%Z in
  let filled_count :=
    Math_round (js_mul (js_div percentage (Fin 100)) (Fin (inject_Z blocks))) in
  rbind (String_repeat "▰" filled_count) (fun bar_filled =>
  rbind (String_repeat "▱" (js_sub (Fin (inject_Z blocks)) filled_count))
        (fun bar_empty =>
  Ok (bar_filled ++ bar_empty))).

(** The callback of [map] (lines 72-75). *)
Definition formatLine (stats : WakaTimeStats) (lang : Language) : result string :=
  let percentage := percentage_of stats lang in
  rbind (createProgressBar percentage) (fun bar =>
  Ok (padEnd 10 (name lang) ++ " " ++
      padEnd 14 (formatDuration (total_seconds lang)) ++ " " ++
      bar ++ "  " ++ toFixed1 percentage ++ "%")).

(** lines 69-76 *)
Definition formatStats (stats : WakaTimeStats) : result string :=
  rbind (mapR (formatLine stats) (firstn 5 (languages stats)))
        (fun lines => Ok (join newline lines)).

(** line 80 *)
Definition render (stats : option WakaTimeStats) : result string :=
  match stats with
  | Some s => formatStats s
  | None => Ok "No WakaTime stats available"
  end.

(** lines 79-92 *)
Definition updateGist (stats : option WakaTimeStats) (filename : string)
  : Async unit :=
  content <- lift (render stats) ;;
  try_catch
    (await (content_write env filename content)
           (github_patch remote (gist_url env)
              [(filename,
                {| patch_filename := None; patch_content := content |})]) ;;;
     emit (log_info_line "Gist updated successfully"))
    (fun error =>
       emit (log_error_line
               ("Failed to update gist: " ++ error_message error))).

(** lines 95-104 *)
Definition main : Async unit :=
  try_catch
    (emit (log_info_line "Fetching WakaTime stats and gist filename...") ;;;
     stats <- fetchWakaTimeStats ;;
     filename <- fetchGistFilename ;;
     emit (log_info_line "Updating gist with latest stats...") ;;;
     updateGist stats filename)
    (fun error =>
       emit (log_error_line ("Operation failed: " ++ error_message error))).

End Script.

End Legacy.

(** ** More vocabulary and samples *)

(** The values of [GIST_TITLES]. *)
Definition gist_titles : list string :=
  ["☕ Yesterday Coding Stats"; "☕ Last 7 Days Coding Stats";
   "☕ Last 30 Days Coding Stats"; "☕ Last Year Coding Stats"].

(** The keys of [GIST_TITLES]. *)
Definition time_ranges : list string :=
  ["yesterday"; "last_7_days"; "last_30_days"; "last_year"].

(** A request that writes content: a [PATCH] whose single entry carries no
    new filename. *)
Definition is_content_write (r : request) : bool :=
  match r with
  | PATCH _ [(_, {| patch_filename := None |})] _ => true
  | _ => false
  end.

(** The key under which a [PATCH] of one entry is filed. *)
Definition patched_key (r : request) : option string :=
  match r with
  | PATCH _ [(key, _)] _ => Some key
  | _ => None
  end.


(** The gist cannot be read. *)
Definition gist_down_remote : Remote :=
  sample_remote (Ok {| stats_data := two_languages |})
                (Ok {| summary_data := [] |})
                (Throw network_error) (Ok tt).

(** The first key of the gist is the empty string. *)
Definition nameless_file_remote : Remote :=
  sample_remote (Ok {| stats_data := two_languages |})
                (Ok {| summary_data := [] |})
                (Ok (one_file "" "old text")) (Ok tt).

Definition all_idle : WakaTimeStats :=
  {| languages := [lang "Go" 0; lang "Rust" 0] |}.

(** * Properties *)

(** ** Strings *)

Lemma append_nil_r (s : string) : s ++ "" = s.
Proof. induction s as [|c s IH]; simpl; [reflexivity | now rewrite IH]. Qed.

Lemma append_assoc (a b c : string) : (a ++ b) ++ c = a ++ (b ++ c).
Proof. induction a as [|x a IH]; simpl; [reflexivity | now rewrite IH]. Qed.

Lemma trimStart_solid (s : string) :
  no_white_space s = true -> forall t, trimStart (s ++ t) = match s with
                                                           | EmptyString => trimStart t
                                                           | _ => s ++ t
                                                           end.
Proof.
  destruct s as [|c s]; simpl; intros H t; [reflexivity|].
  apply andb_true_iff in H as [Hc _].
  apply negb_true_iff in Hc. now rewrite Hc.
Qed.

Lemma trimEnd_append (s t : string) :
  no_white_space s = true \/ trimEnd t <> "" ->
  trimEnd (s ++ t) = s ++ trimEnd t.
Proof.
  induction s as [|c s IH]; intros H; simpl; [reflexivity|].
  assert (Hs : no_white_space s = true \/ trimEnd t <> "").
  { destruct H as [H|H]; [left|now right].
    simpl in H. now apply andb_true_iff in H as [_ H]. }
  rewrite (IH Hs).
  destruct (s ++ trimEnd t) eqn:E; [|reflexivity].
  destruct s; [|discriminate E]. simpl in E.
  destruct H as [H|H]; [|congruence].
  simpl in H. apply andb_true_iff in H as [Hc _].
  apply negb_true_iff in Hc. now rewrite Hc.
Qed.

Lemma uint_digits_solid (d : Decimal.uint) :
  no_white_space (NilEmpty.string_of_uint d) = true.
Proof. induction d; simpl; auto. Qed.

Lemma Z_toString_solid (z : Z) : no_white_space (Z_toString z) = true.
Proof.
  unfold Z_toString, NilZero.string_of_int, NilZero.string_of_uint.
  destruct (Z.to_int z) as [d|d]; destruct d; simpl; auto using uint_digits_solid.
Qed.

Lemma Z_toString_nonempty (z : Z) : Z_toString z <> "".
Proof.
  unfold Z_toString, NilZero.string_of_int, NilZero.string_of_uint.
  destruct (Z.to_int z) as [d|d]; destruct d; simpl; discriminate.
Qed.

Lemma eqb_nonempty (s : string) : s <> "" -> (s =? "") = false.
Proof. intros H. now apply String.eqb_neq. Qed.

(** ** formatDuration *)

Lemma floor_div_nat (z : Z) (m : positive) :
  Math_floor (inject_Z z / inject_Z (Zpos m)) = (z / Zpos m)%Z.
Proof. unfold Math_floor. symmetry. apply Zdiv_Qdiv. Qed.

Lemma js_rem_nonneg (z : Z) (m : positive) :
  (0 <= z)%Z ->
  js_rem (inject_Z z) (inject_Z (Zpos m)) == inject_Z (z mod Zpos m).
Proof.
  intros Hz. unfold js_rem, Qtrunc.
  assert (Hs : (Qsgn (inject_Z z / inject_Z (Z.pos m)) <? 0)%Z = false).
  { apply Z.ltb_ge. unfold Qsgn. simpl. rewrite Z.mul_1_r.
    apply Z.sgn_nonneg. exact Hz. }
  rewrite Hs, <- Zdiv_Qdiv.
  rewrite (Z.mod_eq z (Zpos m)) by discriminate.
  unfold Z.sub. rewrite inject_Z_plus, inject_Z_opp, inject_Z_mult. reflexivity.
Qed.

Lemma formatDuration_parts (seconds : Q) :
  formatDuration seconds =
  duration_text (Math_floor (seconds / 3600))
                (Math_floor (js_rem seconds 3600 / 60)).
Proof.
  unfold formatDuration, duration_text, duration_parts, trim.
  set (h := Math_floor (seconds / 3600)).
  set (m := Math_floor (js_rem seconds 3600 / 60)).
  destruct (h =? 0)%Z, (m =? 0)%Z; simpl.
  - reflexivity.
  - rewrite (trimStart_solid _ (Z_toString_solid m)).
    pose proof (Z_toString_nonempty m) as Hm.
    destruct (Z_toString m) eqn:E; [congruence|]. rewrite <- E.
    rewrite trimEnd_append by (left; apply Z_toString_solid).
    rewrite eqb_nonempty; [reflexivity|].
    rewrite E. discriminate.
  - rewrite append_nil_r.
    rewrite (trimStart_solid _ (Z_toString_solid h)).
    pose proof (Z_toString_nonempty h) as Hh.
    destruct (Z_toString h) eqn:E; [congruence|]. rewrite <- E.
    rewrite trimEnd_append by (left; apply Z_toString_solid).
    rewrite eqb_nonempty; [reflexivity|].
    rewrite E. discriminate.
  - rewrite append_assoc.
    rewrite (trimStart_solid _ (Z_toString_solid h)).
    pose proof (Z_toString_nonempty h) as Hh.
    destruct (Z_toString h) eqn:E; [congruence|]. rewrite <- E.
    rewrite trimEnd_append by (left; apply Z_toString_solid).
    change (" hrs " ++ Z_toString m ++ " mins")
      with (" hrs" ++ " " ++ Z_toString m ++ " mins").
    assert (Ht : trimEnd (Z_toString m ++ " mins") = Z_toString m ++ " mins").
    { now rewrite trimEnd_append by (left; apply Z_toString_solid). }
    assert (Hne : Z_toString m ++ " mins" <> "").
    { pose proof (Z_toString_nonempty m).
      destruct (Z_toString m); [congruence|discriminate]. }
    rewrite (trimEnd_append " hrs") by
      (right; rewrite (trimEnd_append " ") by (right; congruence); discriminate).
    rewrite (trimEnd_append " ") by (right; congruence).
    rewrite Ht, append_assoc.
    rewrite eqb_nonempty; [reflexivity|].
    rewrite E. discriminate.
Qed.

(** C7. For every non-negative whole number of seconds below 2^53, the
    range in which a double holds every whole number and the floors of lines
    66 and 67 are exact, [formatDuration] takes the whole hours and the whole
    minutes of the remainder, dropping the seconds left over; the text is
    "0 mins" when both are zero and otherwise the hours part (only when
    nonzero) and the minutes part (only when nonzero) joined by a space.  In
    particular 0 gives "0 mins", 3661 gives "1 hrs 1 mins" and 60 gives
    "1 mins". *)
Theorem formatDuration_hours_minutes (n : N) :
  (n < 2 ^ 53)%N ->
  formatDuration (inject_Z (Z.of_N n)) =
    duration_text (Z.of_N n / 3600) ((Z.of_N n mod 3600) / 60)
  /\ formatDuration 0 = "0 mins"
  /\ formatDuration 3661 = "1 hrs 1 mins"
  /\ formatDuration 60 = "1 mins".
Proof.
  intros _.
  split; [|repeat split; reflexivity].
  rewrite formatDuration_parts.
  change 3600 with (inject_Z 3600). change 60 with (inject_Z 60).
  rewrite floor_div_nat.
  unfold Math_floor.
  rewrite (Qfloor_comp _ (inject_Z (Z.of_N n mod 3600) / inject_Z 60)).
  - now rewrite <- Zdiv_Qdiv.
  - rewrite js_rem_nonneg by apply N2Z.is_nonneg. reflexivity.
Qed.

Lemma formatDuration_hours_minutes_witness :
  (86399 < 2 ^ 53)%N
  /\ formatDuration 86399 = "23 hrs 59 mins".
Proof.
  split; [reflexivity|].
  exact (proj1 (formatDuration_hours_minutes 86399 eq_refl)).
Defined.

(** ** createProgressBar *)

Lemma selected_style_cases (env : Env) (style : ProgressStyle) :
  selected_style env = Some style ->
  style = style_arrow \/ style = style_hash \/ style = style_default.
Proof.
  unfold selected_style, PROGRESS_STYLES.
  repeat match goal with
         | |- context [if ?b then _ else _] => destruct b
         end; intros H; inversion H; auto.
Qed.

Lemma Qtrunc_Z (z : Z) : Qtrunc (inject_Z z) = z.
Proof.
  unfold Qtrunc. destruct (Qsgn (inject_Z z) <? 0)%Z.
  - apply Qceiling_Z.
  - apply Qfloor_Z.
Qed.

Lemma Qtrunc_sub_Z (a b : Z) : Qtrunc (inject_Z a - inject_Z b) = (a - b)%Z.
Proof.
  rewrite <- (Qtrunc_Z (a - b)).
  unfold Qtrunc, Qsgn, Qceiling, Qfloor. simpl.
  replace (a * 1 + - b * 1)%Z with (a - b)%Z by lia.
  replace (- (a * 1 + - b * 1))%Z with (- (a - b))%Z by lia.
  reflexivity.
Qed.

Lemma String_repeat_integer (s : string) (n : Z) :
  (0 <= n)%Z ->
  String_repeat s (Fin (inject_Z n)) = Ok (repeat_string s (Z.to_nat n)).
Proof.
  intros Hn. unfold String_repeat. rewrite Qtrunc_Z.
  apply Z.ltb_ge in Hn. now rewrite Hn.
Qed.

Lemma round_half_up_bounds (x : Q) (b : Z) :
  0 <= x -> x <= inject_Z b -> (0 <= round_half_up x <= b)%Z.
Proof.
  intros H0 Hb. unfold round_half_up. split.
  - change 0%Z with (Qfloor 0). apply Qfloor_resp_le. lra.
  - apply Z.lt_succ_r. rewrite Zlt_Qlt.
    apply Qle_lt_trans with (x + (1 # 2)); [apply Qfloor_le|].
    unfold Z.succ. rewrite inject_Z_plus. change (inject_Z 1) with 1.
    revert Hb. generalize (inject_Z b). intros c Hb. lra.
Qed.

Lemma createProgressBar_count (env : Env) (style : ProgressStyle) (q : Q) :
  selected_style env = Some style ->
  let n := round_half_up (q / 100 * inject_Z (blocks style)) in
  (0 <= n <= blocks style)%Z ->
  createProgressBar env (Fin q) = Ok (bar_of style n).
Proof.
  intros Hs n Hn. unfold createProgressBar. rewrite Hs.
  change (js_div (Fin q) (Fin 100)) with (Fin (q / 100)).
  cbn [js_mul Math_round]. fold n.
  rewrite String_repeat_integer by lia. cbn [rbind js_sub].
  unfold String_repeat. rewrite Qtrunc_sub_Z.
  destruct (blocks style - n <? 0)%Z eqn:E; [apply Z.ltb_lt in E; lia|].
  reflexivity.
Qed.

Lemma scaled_percentage_bounds (style : ProgressStyle) (q : Q) :
  style = style_arrow \/ style = style_hash \/ style = style_default ->
  0 <= q <= 100 ->
  0 <= q / 100 * inject_Z (blocks style) <= inject_Z (blocks style).
Proof.
  intros [ -> | [ -> | -> ] ] [H0 H1]; cbn [blocks style_arrow style_hash style_default];
    unfold inject_Z, Qdiv; change (/ 100) with (1 # 100); split; lra.
Qed.





(** ** formatStats *)

Lemma fold_seconds (ls : list Language) (a : Q) :
  fold_left (fun sum l => sum + total_seconds l) ls a == a + sum_seconds ls.
Proof.
  revert a. induction ls as [|l ls IH]; intros a; simpl.
  - lra.
  - rewrite IH. lra.
Qed.

Lemma total_of_sum (stats : WakaTimeStats) :
  total_of stats == sum_seconds (languages stats).
Proof. unfold total_of. rewrite fold_seconds. lra. Qed.

Lemma sum_seconds_bounds (ls : list Language) :
  (forall l, In l ls -> 0 <= total_seconds l) ->
  0 <= sum_seconds ls /\ forall l, In l ls -> total_seconds l <= sum_seconds ls.
Proof.
  induction ls as [|x ls IH]; intros H; simpl.
  - split; [lra | intros l []].
  - assert (Hx : 0 <= total_seconds x) by (apply H; now left).
    destruct IH as [H0 Hle]; [intros l Hl; apply H; now right|].
    split; [lra|].
    intros l [<-|Hl]; [lra|]. specialize (Hle l Hl). lra.
Qed.

Lemma Qsgn_positive (q : Q) : 0 < q -> (Qsgn q =? 0)%Z = false.
Proof.
  unfold Qlt, Qsgn. simpl. intros H. apply Z.eqb_neq.
  destruct (Qnum q); simpl in *; lia.
Qed.

Lemma Qsgn_nonnegative (q : Q) : 0 <= q -> (Qsgn q <? 0)%Z = false.
Proof.
  unfold Qle, Qsgn. simpl. intros H. apply Z.ltb_ge.
  destruct (Qnum q); simpl in *; lia.
Qed.

Lemma percentage_of_finite (stats : WakaTimeStats) (l : Language) :
  0 < total_of stats ->
  percentage_of stats l = Fin (total_seconds l / total_of stats * 100).
Proof.
  intros H. unfold percentage_of, js_div. now rewrite (Qsgn_positive _ H).
Qed.

Lemma share_bounds (x t : Q) :
  0 <= x -> x <= t -> 0 < t -> 0 <= x / t * 100 <= 100.
Proof.
  intros H0 H1 Ht.
  assert (Hlo : 0 <= x / t) by (apply Qle_shift_div_l; [exact Ht | lra]).
  assert (Hhi : x / t <= 1) by (apply Qle_shift_div_r; [exact Ht | lra]).
  revert Hlo Hhi. generalize (x / t). intros r Hlo Hhi. split; lra.
Qed.

Lemma mapR_pure {A B} (f : A -> result B) (g : A -> B) (xs : list A) :
  (forall x, In x xs -> f x = Ok (g x)) -> mapR f xs = Ok (map g xs).
Proof.
  induction xs as [|x xs IH]; intros H; simpl; [reflexivity|].
  rewrite (H x) by now left. simpl.
  rewrite IH by (intros y Hy; apply H; now right). reflexivity.
Qed.

Lemma In_firstn {A} (n : nat) (xs : list A) (x : A) :
  In x (firstn n xs) -> In x xs.
Proof.
  revert xs. induction n as [|n IH]; intros [|y xs]; simpl; try tauto.
  intros [->|H]; [now left | right; now apply IH].
Qed.

Lemma formatLine_rendered
  (env : Env) (style : ProgressStyle) (stats : WakaTimeStats) (l : Language) :
  selected_style env = Some style ->
  0 < total_of stats ->
  0 <= total_seconds l <= total_of stats ->
  formatLine env stats l =
    Ok (line_of style l (total_seconds l / total_of stats * 100)).
Proof.
  intros Hs Ht [H0 H1]. unfold formatLine, line_of.
  rewrite (percentage_of_finite _ _ Ht).
  pose proof (share_bounds _ _ H0 H1 Ht) as Hq.
  rewrite (createProgressBar_count env style _ Hs).
  - cbn [rbind toFixed1]. now rewrite (Qsgn_nonnegative _ (proj1 Hq)).
  - pose proof (scaled_percentage_bounds style _
                  (selected_style_cases env style Hs) Hq) as [Ha Hb].
    now apply round_half_up_bounds.
Qed.

(** Under a recognised style, non-negative seconds and a positive total,
    [formatStats] does not throw and its text is the rendered lines of the
    first five entries, in order, joined by newlines. *)
Lemma formatStats_rendered
  (env : Env) (style : ProgressStyle) (stats : WakaTimeStats) :
  selected_style env = Some style ->
  (forall l, In l (languages stats) -> 0 <= total_seconds l) ->
  0 < sum_seconds (languages stats) ->
  formatStats env stats =
    Ok (join newline
          (map (fun l => line_of style l
                           (total_seconds l / total_of stats * 100))
               (firstn 5 (languages stats)))).
Proof.
  intros Hs Hnn Hpos. unfold formatStats.
  pose proof (total_of_sum stats) as Ht.
  destruct (sum_seconds_bounds _ Hnn) as [_ Hle].
  rewrite (mapR_pure _ (fun l => line_of style l
                                   (total_seconds l / total_of stats * 100))).
  - reflexivity.
  - intros l Hl. apply In_firstn in Hl.
    apply formatLine_rendered; [exact Hs | lra |].
    split; [now apply Hnn | specialize (Hle l Hl); lra].
Qed.








Lemma length_append (s t : string) :
  String.length (s ++ t) = (String.length s + String.length t)%nat.
Proof. induction s as [|c s IH]; simpl; [reflexivity | now rewrite IH]. Qed.

Lemma length_spaces (n : nat) : String.length (repeat_string " " n) = n.
Proof. induction n as [|n IH]; simpl; [reflexivity | now rewrite IH]. Qed.

Lemma padEnd_length (n : nat) (s : string) :
  String.length (padEnd n s) = Nat.max n (String.length s).
Proof. unfold padEnd. rewrite length_append, length_spaces. lia. Qed.






(** ** Events of a run *)

Lemma requests_of_app (t u : list event) :
  requests_of (t ++ u) = (requests_of t ++ requests_of u)%list.
Proof. unfold requests_of. apply flat_map_app. Qed.

Lemma writes_of_app (t u : list event) :
  writes_of (t ++ u) = (writes_of t ++ writes_of u)%list.
Proof. unfold writes_of. now rewrite requests_of_app, filter_app. Qed.

(** ** fetchWakaTimeStats *)

(** The stats fetch never rejects, and its only request is the [GET] of the
    endpoint chosen for the time range. *)
Lemma fetchWakaTimeStats_settles (env : Env) (remote : Remote) :
  exists stats t,
    fetchWakaTimeStats env remote = (Ok stats, t)
    /\ requests_of t =
         [GET (getWakaTimeEndpoint (timeRange_of env)) (wakatime_headers env)].
Proof.
  unfold fetchWakaTimeStats, try_catch, bind, await.
  destruct (wakatime_get env remote _) as [[d|d]|e]; simpl; eauto.
Qed.

Lemma fetchWakaTimeStats_rejected (env : Env) (remote : Remote) (e : exn) :
  wakatime_get env remote (getWakaTimeEndpoint (timeRange_of env)) = Throw e ->
  fetchWakaTimeStats env remote =
    (Ok None,
     [Request (GET (getWakaTimeEndpoint (timeRange_of env))
                   (wakatime_headers env));
      Console (console_log_error e);
      Console (log_error_line ("Failed to fetch WakaTime stats: " ++ message e))]).
Proof.
  intros H. unfold fetchWakaTimeStats, try_catch, bind, await.
  rewrite H. reflexivity.
Qed.

(** C9. With the range set to 'yesterday' the fetch goes to the summaries
    endpoint and takes the languages of the first summary; a response with no
    summary at all gives a snapshot with an empty language list, and the
    fetch does not fail. *)
Theorem fetchWakaTimeStats_yesterday
  (env : Env) (remote : Remote) (response : SummaryResponse) :
  TIME_RANGE env = Some "yesterday" ->
  wakatime_summaries remote
    "https://wakatime.com/api/v1/users/current/summaries?range=yesterday" =
    Ok response ->
  requests_of (events (fetchWakaTimeStats env remote)) =
    [GET "https://wakatime.com/api/v1/users/current/summaries?range=yesterday"
         (wakatime_headers env)]
  /\ settled (fetchWakaTimeStats env remote) =
       Ok (Some {| languages :=
                     languages (hd {| languages := [] |} (summary_data response)) |})
  /\ (summary_data response = [] ->
      fetchWakaTimeStats env remote =
        (Ok (Some {| languages := [] |}),
         [Request
            (GET "https://wakatime.com/api/v1/users/current/summaries?range=yesterday"
                 (wakatime_headers env))])).
Proof.
  intros Hr Hs.
  assert (Hf : fetchWakaTimeStats env remote =
               (Ok (Some {| languages :=
                              languages (hd {| languages := [] |}
                                            (summary_data response)) |}),
                [Request
                   (GET "https://wakatime.com/api/v1/users/current/summaries?range=yesterday"
                        (wakatime_headers env))])).
  { unfold fetchWakaTimeStats, wakatime_get, timeRange_of. rewrite Hr.
    cbn [or_string String.eqb Ascii.eqb Bool.eqb getWakaTimeEndpoint].
    change (endpoints_summaries "yesterday")
      with "https://wakatime.com/api/v1/users/current/summaries?range=yesterday".
    rewrite Hs. unfold try_catch, bind, await, ret. cbn [rbind fst snd].
    destruct (summary_data response); reflexivity. }
  rewrite Hf. repeat split; try reflexivity.
  intros Hnil. now rewrite Hnil.
Qed.

Lemma fetchWakaTimeStats_yesterday_witness :
  TIME_RANGE yesterday_env = Some "yesterday"
  /\ wakatime_summaries no_summary_remote
       "https://wakatime.com/api/v1/users/current/summaries?range=yesterday" =
       Ok {| summary_data := [] |}
  /\ settled (fetchWakaTimeStats yesterday_env no_summary_remote) =
       Ok (Some {| languages := [] |}).
Proof.
  split; [reflexivity|]. split; [reflexivity|].
  exact (proj1 (proj2 (fetchWakaTimeStats_yesterday
                         yesterday_env no_summary_remote
                         {| summary_data := [] |} eq_refl eq_refl))).
Defined.

(** ** main *)

(** A run, spelled out from how the two fetches settle. *)
Lemma main_run (env : Env) (remote : Remote)
  (stats : option WakaTimeStats) (t1 t2 : list event) (r : result string) :
  fetchWakaTimeStats env remote = (Ok stats, t1) ->
  fetchGistFilename env remote = (r, t2) ->
  main env remote =
    (Ok tt,
     (Console (log_info_line "Fetching WakaTime stats and gist filename...")
        :: t1 ++ t2 ++
      match r with
      | Throw e =>
          [Console (log_error_line ("Operation failed: " ++ message e))]
      | Ok fn =>
          Console (log_info_line "Updating gist with latest stats...") ::
          match render env stats with
          | Throw e =>
              [Console (log_error_line ("Operation failed: " ++ message e))]
          | Ok text =>
              [Request (content_write env fn text);
               Console
                 match github_patch remote (gist_url env)
                         [(fn, {| patch_filename := None;
                                  patch_content := text |})] with
                 | Ok _ => log_info_line "Gist updated successfully"
                 | Throw e =>
                     log_error_line ("Failed to update gist: " ++ message e)
                 end]
          end
      end)%list).
Proof.
  intros H1 H2. unfold main, try_catch, bind, emit. rewrite H1, H2.
  destruct r as [fn|e]; cbn [app].
  - unfold updateGist, lift, try_catch, bind, await, emit, error_message.
    destruct (render env stats) as [text|e]; cbn [app].
    + destruct (github_patch remote (gist_url env) _) as [[]|e]; cbn [app];
        now rewrite <- ?app_assoc.
    + now rewrite <- ?app_assoc.
  - unfold error_message. now rewrite <- ?app_assoc.
Qed.

Lemma main_requests (env : Env) (remote : Remote)
  (stats : option WakaTimeStats) (fn text : string) :
  settled (fetchWakaTimeStats env remote) = Ok stats ->
  settled (fetchGistFilename env remote) = Ok fn ->
  render env stats = Ok text ->
  settled (main env remote) = Ok tt
  /\ requests_of (events (main env remote)) =
       (GET (getWakaTimeEndpoint (timeRange_of env)) (wakatime_headers env)
          :: requests_of (events (fetchGistFilename env remote))
          ++ [content_write env fn text])%list.
Proof.
  intros H1 H2 Hr.
  destruct (fetchWakaTimeStats_settles env remote) as [stats' [t1 [Hf Hreq]]].
  rewrite Hf in H1. cbn in H1. injection H1 as ->.
  destruct (fetchGistFilename env remote) as [r t2] eqn:Hg.
  cbn in H2. subst r.
  rewrite (main_run env remote stats t1 t2 (Ok fn) Hf Hg), Hr.
  split; [reflexivity|].
  cbn [events snd]. change (?x :: ?l) with ([x] ++ l)%list at 1.
  rewrite !requests_of_app, Hreq. reflexivity.
Qed.

(** C3. When the request to the stats API is rejected, the stats fetch
    settles with null instead of rejecting, and, with the filename [fn]
    returned by the locator, the run ends by patching the file [fn] with
    exactly the text 'No WakaTime stats available'. *)
Theorem failed_fetch_writes_placeholder
  (env : Env) (remote : Remote) (e : exn) (fn : string) :
  wakatime_get env remote (getWakaTimeEndpoint (timeRange_of env)) = Throw e ->
  settled (fetchGistFilename env remote) = Ok fn ->
  settled (fetchWakaTimeStats env remote) = Ok None
  /\ settled (main env remote) = Ok tt
  /\ requests_of (events (main env remote)) =
       (GET (getWakaTimeEndpoint (timeRange_of env)) (wakatime_headers env)
          :: requests_of (events (fetchGistFilename env remote))
          ++ [PATCH (gist_url env)
                [(fn, {| patch_filename := None;
                         patch_content := "No WakaTime stats available" |})]
                (github_headers env)])%list.
Proof.
  intros He Hfn.
  assert (Hs : settled (fetchWakaTimeStats env remote) = Ok None)
    by now rewrite (fetchWakaTimeStats_rejected env remote e He).
  split; [exact Hs|].
  exact (main_requests env remote None fn placeholder Hs Hfn eq_refl).
Qed.

Lemma failed_fetch_writes_placeholder_witness :
  wakatime_get default_env stats_down_remote
    (getWakaTimeEndpoint (timeRange_of default_env)) = Throw network_error
  /\ settled (fetchGistFilename default_env stats_down_remote) =
       Ok "☕ Last 7 Days Coding Stats"
  /\ requests_of (events (main default_env stats_down_remote)) =
       [GET "https://wakatime.com/api/v1/users/current/stats/last_7_days"
            [("Authorization", "Basic waka_0123")];
        GET "https://api.github.com/gists/8f1c" (github_headers default_env);
        PATCH "https://api.github.com/gists/8f1c"
          [("☕ Last 7 Days Coding Stats",
            {| patch_filename := None;
               patch_content := "No WakaTime stats available" |})]
          (github_headers default_env)].
Proof.
  split; [reflexivity|]. split; [reflexivity|].
  exact (proj2 (proj2 (failed_fetch_writes_placeholder
                         default_env stats_down_remote network_error
                         "☕ Last 7 Days Coding Stats" eq_refl eq_refl))).
Defined.

(** ** fetchGistFilename *)

Lemma fetchGistFilename_no_file (env : Env) (remote : Remote) (data : GistResponse) :
  github_get remote (gist_url env) = Ok data ->
  files data = [] ->
  fetchGistFilename env remote =
    (Throw (Exn PlainError "No files found in the gist"),
     [Request (GET (gist_url env) (github_headers env));
      Console (log_error_line
                 "Failed to fetch/update gist filename: No files found in the gist")]).
Proof.
  intros Hg Hf. unfold fetchGistFilename, try_catch, bind, await.
  rewrite Hg, Hf. reflexivity.
Qed.

(** C4. When the gist fetched has no file, the locator fails with the error
    'No files found in the gist', the error reaches the handler of [main],
    which logs it as a failed operation, and the run issues no [PATCH] at
    all. *)
Theorem empty_gist_stops_the_run
  (env : Env) (remote : Remote) (data : GistResponse) :
  github_get remote (gist_url env) = Ok data ->
  files data = [] ->
  settled (fetchGistFilename env remote) =
    Throw (Exn PlainError "No files found in the gist")
  /\ settled (main env remote) = Ok tt
  /\ In (Console (log_error_line "Operation failed: No files found in the gist"))
        (events (main env remote))
  /\ writes_of (events (main env remote)) = [].
Proof.
  intros Hg Hf.
  pose proof (fetchGistFilename_no_file env remote data Hg Hf) as Hl.
  destruct (fetchWakaTimeStats_settles env remote) as [stats [t1 [Hs Hreq]]].
  rewrite (main_run env remote stats t1 _ _ Hs Hl), Hl.
  split; [reflexivity|]. split; [reflexivity|]. split.
  - cbn [events snd]. right. apply in_or_app. right.
    apply in_or_app. right. now left.
  - cbn [events snd]. change (?x :: ?l) with ([x] ++ l)%list at 1.
    rewrite !writes_of_app. unfold writes_of at 2. rewrite Hreq. reflexivity.
Qed.

Lemma empty_gist_stops_the_run_witness :
  github_get empty_gist_remote (gist_url default_env) = Ok {| files := [] |}
  /\ events (main default_env empty_gist_remote) =
       [Console (log_info_line "Fetching WakaTime stats and gist filename...");
        Request (GET "https://wakatime.com/api/v1/users/current/stats/last_7_days"
                     (wakatime_headers default_env));
        Request (GET "https://api.github.com/gists/8f1c"
                     (github_headers default_env));
        Console (log_error_line
                   "Failed to fetch/update gist filename: No files found in the gist");
        Console (log_error_line "Operation failed: No files found in the gist")]
  /\ writes_of (events (main default_env empty_gist_remote)) = [].
Proof.
  split; [reflexivity|]. split; [reflexivity|].
  exact (proj2 (proj2 (proj2 (empty_gist_stops_the_run
                                default_env empty_gist_remote {| files := [] |}
                                eq_refl eq_refl)))).
Defined.

Lemma files_lookup_head (k : string) (f : GistFile) (rest : list (string * GistFile)) :
  files_lookup k ((k, f) :: rest) = Some f.
Proof. unfold files_lookup. simpl. now rewrite String.eqb_refl. Qed.




(** ** What is written for an empty snapshot *)

Lemma last_char_append (s t : string) (c : ascii) :
  last_char t = Some c -> last_char (s ++ t) = Some c.
Proof.
  intros H. induction s as [|x s IH]; simpl; [exact H | now rewrite IH].
Qed.

Lemma last_char_cons (x : ascii) (t : string) (c : ascii) :
  last_char t = Some c -> last_char (String x t) = Some c.
Proof. intros H. simpl. now rewrite H. Qed.

Lemma formatLine_ends_with_percent
  (env : Env) (stats : WakaTimeStats) (l : Language) (line : string) :
  formatLine env stats l = Ok line -> last_char line = Some "%"%char.
Proof.
  unfold formatLine.
  destruct (createProgressBar env (percentage_of stats l)) as [bar|e];
    simpl; intros H; inversion H.
  apply last_char_append, last_char_cons, last_char_append, last_char_cons.
  apply last_char_append, last_char_cons, last_char_cons, last_char_append.
  reflexivity.
Qed.

Lemma mapR_Forall {A B} (f : A -> result B) (P : B -> Prop) (xs : list A) (ys : list B) :
  (forall x y, f x = Ok y -> P y) -> mapR f xs = Ok ys -> Forall P ys.
Proof.
  intros Hf. revert ys. induction xs as [|x xs IH]; simpl; intros ys H.
  - inversion H. constructor.
  - destruct (f x) as [y|e] eqn:E; simpl in H; [|discriminate].
    destruct (mapR f xs) as [ys'|e]; simpl in H; [|discriminate].
    inversion H. constructor; eauto.
Qed.

Lemma join_last_char (sep : string) (c : ascii) (lines : list string) :
  Forall (fun line => last_char line = Some c) lines ->
  lines <> [] -> last_char (join sep lines) = Some c.
Proof.
  induction 1 as [|l rest Hl Hrest IH]; intros Hne; [congruence|].
  destruct rest as [|l' rest'].
  - exact Hl.
  - change (join sep (l :: l' :: rest'))
      with (l ++ sep ++ join sep (l' :: rest')).
    do 2 apply last_char_append. apply IH. discriminate.
Qed.

(** The text rendered from a snapshot is empty or ends with a percent sign. *)
Lemma formatStats_text (env : Env) (stats : WakaTimeStats) (text : string) :
  formatStats env stats = Ok text ->
  text = "" \/ last_char text = Some "%"%char.
Proof.
  unfold formatStats.
  destruct (mapR (formatLine env stats) (firstn 5 (languages stats)))
    as [lines|e] eqn:E; simpl; intros H; inversion H.
  destruct lines as [|l rest]; [now left | right].
  apply join_last_char; [|discriminate].
  eapply mapR_Forall; [|exact E].
  intros x y. apply formatLine_ends_with_percent.
Qed.

(** C10. When the stats fetch succeeds with an empty language list,
    [formatStats] returns the empty string and the run patches the located
    file with empty content; the placeholder 'No WakaTime stats available' is
    the rendered content only when the fetch returned null. *)
Theorem empty_snapshot_writes_empty_content
  (env : Env) (remote : Remote) (stats : WakaTimeStats) (fn : string) :
  settled (fetchWakaTimeStats env remote) = Ok (Some stats) ->
  languages stats = [] ->
  settled (fetchGistFilename env remote) = Ok fn ->
  formatStats env stats = Ok ""
  /\ requests_of (events (main env remote)) =
       (GET (getWakaTimeEndpoint (timeRange_of env)) (wakatime_headers env)
          :: requests_of (events (fetchGistFilename env remote))
          ++ [PATCH (gist_url env)
                [(fn, {| patch_filename := None; patch_content := "" |})]
                (github_headers env)])%list
  /\ forall fetched,
       render env fetched = Ok "No WakaTime stats available" -> fetched = None.
Proof.
  intros Hs Hl Hfn.
  assert (Hf : formatStats env stats = Ok "")
    by (unfold formatStats; now rewrite Hl).
  split; [exact Hf|]. split.
  - exact (proj2 (main_requests env remote (Some stats) fn "" Hs Hfn Hf)).
  - intros [s|] H; [|reflexivity]. simpl in H.
    destruct (formatStats_text env s _ H) as [H0|H0]; discriminate H0.
Qed.

Lemma empty_snapshot_writes_empty_content_witness :
  settled (fetchWakaTimeStats default_env idle_remote) =
    Ok (Some {| languages := [] |})
  /\ settled (fetchGistFilename default_env idle_remote) =
       Ok "☕ Last 7 Days Coding Stats"
  /\ requests_of (events (main default_env idle_remote)) =
       [GET "https://wakatime.com/api/v1/users/current/stats/last_7_days"
            (wakatime_headers default_env);
        GET "https://api.github.com/gists/8f1c" (github_headers default_env);
        PATCH "https://api.github.com/gists/8f1c"
          [("☕ Last 7 Days Coding Stats",
            {| patch_filename := None; patch_content := "" |})]
          (github_headers default_env)].
Proof.
  split; [reflexivity|]. split; [reflexivity|].
  exact (proj1 (proj2 (empty_snapshot_writes_empty_content
                         default_env idle_remote {| languages := [] |}
                         "☕ Last 7 Days Coding Stats"
                         eq_refl eq_refl eq_refl))).
Defined.

(** ** Selectors outside their enumerations *)

(** C1 fails on the code.  A style selector outside the three documented
    values makes [createProgressBar] throw a [TypeError] instead of drawing
    with the default style, and the run ends without writing the stats.  A
    range selector outside the four documented values is sent to the stats
    endpoint as it is, while the gist title does fall back to the default
    range.  Only an unset or empty selector gets the default. *)
Theorem unrecognised_selectors_not_defaulted :
  createProgressBar odd_style_env (Fin 50) =
    Throw (Exn TypeError "Cannot read properties of undefined (reading 'blocks')")
  /\ createProgressBar default_env (Fin 50) = Ok "▰▰▰▰▰▰▰▱▱▱▱▱▱▱"
  /\ events (main odd_style_env titled_gist_remote) =
       [Console (log_info_line "Fetching WakaTime stats and gist filename...");
        Request (GET "https://wakatime.com/api/v1/users/current/stats/last_7_days"
                     (wakatime_headers odd_style_env));
        Request (GET "https://api.github.com/gists/8f1c"
                     (github_headers odd_style_env));
        Console (log_info_line "Updating gist with latest stats...");
        Console (log_error_line
          "Operation failed: Cannot read properties of undefined (reading 'blocks')")]
  /\ getWakaTimeEndpoint (timeRange_of odd_range_env) =
       "https://wakatime.com/api/v1/users/current/stats/last_week"
  /\ getWakaTimeEndpoint (timeRange_of default_env) =
       "https://wakatime.com/api/v1/users/current/stats/last_7_days"
  /\ getGistTitle (timeRange_of odd_range_env) =
       getGistTitle (timeRange_of default_env)
  /\ selected_style (sample_env None (Some "")) = Some style_default
  /\ timeRange_of (sample_env (Some "") None) = "last_7_days".
Proof. repeat split; reflexivity. Qed.

(** * Further properties of the script *)

(** ** The two fetches *)

(** X1. The stats fetch never rejects: it settles with a snapshot, or with
    null exactly when its request was rejected; either way it has issued the
    one [GET] of the endpoint chosen for the time range and no [PATCH]. *)
Theorem fetchWakaTimeStats_never_rejects (env : Env) (remote : Remote) :
  exists stats,
    settled (fetchWakaTimeStats env remote) = Ok stats
    /\ (stats = None <->
        exists e,
          wakatime_get env remote (getWakaTimeEndpoint (timeRange_of env)) =
            Throw e)
    /\ requests_of (events (fetchWakaTimeStats env remote)) =
         [GET (getWakaTimeEndpoint (timeRange_of env)) (wakatime_headers env)]
    /\ writes_of (events (fetchWakaTimeStats env remote)) = [].
Proof.
  unfold fetchWakaTimeStats, try_catch, bind, await.
  destruct (wakatime_get env remote _) as [[d|d]|e]; cbn.
  - eexists. split; [reflexivity|]. repeat split; try discriminate.
    intros [e He]. discriminate He.
  - eexists. split; [reflexivity|]. repeat split; try discriminate.
    intros [e He]. discriminate He.
  - exists None. repeat split; eauto.
Qed.

(** How the locator can end: with the title of the time range, or with a
    plain error; after its [GET] it has issued at most the rename of a file
    whose key is not the title. *)
Lemma fetchGistFilename_shape (env : Env) (remote : Remote) :
  let title := getGistTitle (timeRange_of env) in
  exists r t renames,
    fetchGistFilename env remote = (r, t)
    /\ (r = Ok title \/ exists msg, r = Throw (Exn PlainError msg))
    /\ requests_of t = GET (gist_url env) (github_headers env) :: renames
    /\ (renames = [] \/
        exists key text,
          key <> title /\
          renames =
            [PATCH (gist_url env)
               [(key, {| patch_filename := Some title; patch_content := text |})]
               (github_headers env)]).
Proof.
  intros title. unfold fetchGistFilename, try_catch, bind, await.
  destruct (github_get remote (gist_url env)) as [data|e]; cbn [app].
  2: { do 3 eexists. split; [reflexivity|]. cbn. eauto 6. }
  destruct (files data) as [|[key file] rest] eqn:Hf; cbn [hd_error option_map fst].
  { do 3 eexists. split; [reflexivity|]. cbn. eauto 6. }
  destruct (key =? "") eqn:Hk.
  { do 3 eexists. split; [reflexivity|]. cbn. eauto 6. }
  fold title. destruct (key =? title) eqn:Ht; cbn [negb].
  { do 3 eexists. split; [reflexivity|]. cbn. eauto 6. }
  apply String.eqb_neq in Ht. rewrite files_lookup_head.
  destruct (github_patch remote (gist_url env) _) as [[]|e];
    do 3 eexists; (split; [reflexivity|]); cbn;
    (split; [eauto|]); (split; [reflexivity|]); right; eauto.
Qed.

(** X2. For a time range that is not a name inherited from
    [Object.prototype], and whatever the gist holds, a filename returned by
    the locator is the title of the time range, hence one of the four titles
    of [GIST_TITLES]: the locator never hands on the name it found. *)
Theorem fetchGistFilename_returns_a_title
  (env : Env) (remote : Remote) (fn : string) :
  inherited (timeRange_of env) = false ->
  settled (fetchGistFilename env remote) = Ok fn ->
  fn = getGistTitle (timeRange_of env) /\ In fn gist_titles.
Proof.
  intros _ H.
  destruct (fetchGistFilename_shape env remote) as [r [t [rn [Hr [Hs _]]]]].
  rewrite Hr in H. cbn in H. subst r.
  assert (Hfn : fn = getGistTitle (timeRange_of env)).
  { destruct Hs as [Hs|[msg Hs]]; [now inversion Hs | discriminate Hs]. }
  split; [exact Hfn|]. subst fn.
  unfold getGistTitle, GIST_TITLES, gist_titles.
  repeat match goal with
         | |- context [if ?b then _ else _] => destruct b
         end; cbn; auto.
Qed.

Lemma fetchGistFilename_returns_a_title_witness :
  inherited (timeRange_of yesterday_env) = false
  /\ settled (fetchGistFilename yesterday_env untitled_gist_remote) =
       Ok "☕ Yesterday Coding Stats"
  /\ In "☕ Yesterday Coding Stats" gist_titles.
Proof.
  split; [reflexivity|]. split; [reflexivity|].
  exact (proj2 (fetchGistFilename_returns_a_title
                  yesterday_env untitled_gist_remote
                  "☕ Yesterday Coding Stats" eq_refl eq_refl)).
Defined.

(** X3. When the gist cannot be read, the locator logs the failure and
    throws an error with the same message; the run then logs a failed
    operation and issues no [PATCH]. *)
Theorem gist_read_failure_is_fatal (env : Env) (remote : Remote) (e : exn) :
  github_get remote (gist_url env) = Throw e ->
  fetchGistFilename env remote =
    (Throw (Exn PlainError (message e)),
     [Request (GET (gist_url env) (github_headers env));
      Console (log_error_line
                 ("Failed to fetch/update gist filename: " ++ message e))])
  /\ In (Console (log_error_line ("Operation failed: " ++ message e)))
        (events (main env remote))
  /\ writes_of (events (main env remote)) = [].
Proof.
  intros Hg.
  assert (Hl : fetchGistFilename env remote =
               (Throw (Exn PlainError (message e)),
                [Request (GET (gist_url env) (github_headers env));
                 Console (log_error_line
                            ("Failed to fetch/update gist filename: " ++ message e))])).
  { unfold fetchGistFilename, try_catch, bind, await. now rewrite Hg. }
  split; [exact Hl|].
  destruct (fetchWakaTimeStats_settles env remote) as [stats [t1 [Hs Hreq]]].
  rewrite (main_run env remote stats t1 _ _ Hs Hl). cbn [events snd]. split.
  - right. apply in_or_app. right. apply in_or_app. right. now left.
  - change (?x :: ?l) with ([x] ++ l)%list at 1.
    rewrite !writes_of_app. unfold writes_of at 2. rewrite Hreq. reflexivity.
Qed.

Lemma gist_read_failure_is_fatal_witness :
  github_get gist_down_remote (gist_url default_env) = Throw network_error
  /\ writes_of (events (main default_env gist_down_remote)) = [].
Proof.
  split; [reflexivity|].
  exact (proj2 (proj2 (gist_read_failure_is_fatal
                         default_env gist_down_remote network_error eq_refl))).
Defined.

(** X4. A gist whose first key is the empty string is treated like a gist
    without files: the locator throws 'No files found in the gist' and has
    issued no [PATCH]. *)
Theorem empty_first_key_counts_as_no_file
  (env : Env) (remote : Remote) (data : GistResponse)
  (file : GistFile) (rest : list (string * GistFile)) :
  github_get remote (gist_url env) = Ok data ->
  files data = ("", file) :: rest ->
  settled (fetchGistFilename env remote) =
    Throw (Exn PlainError "No files found in the gist")
  /\ requests_of (events (fetchGistFilename env remote)) =
       [GET (gist_url env) (github_headers env)].
Proof.
  intros Hg Hf. unfold fetchGistFilename, try_catch, bind, await.
  rewrite Hg, Hf. split; reflexivity.
Qed.

Lemma empty_first_key_counts_as_no_file_witness :
  github_get nameless_file_remote (gist_url default_env) =
    Ok (one_file "" "old text")
  /\ settled (fetchGistFilename default_env nameless_file_remote) =
       Throw (Exn PlainError "No files found in the gist").
Proof.
  split; [reflexivity|].
  exact (proj1 (empty_first_key_counts_as_no_file
                  default_env nameless_file_remote (one_file "" "old text")
                  {| filename := ""; content := "old text" |} []
                  eq_refl eq_refl)).
Defined.

(** ** The writer and the whole run *)

(** X5. A rejected content write is logged and swallowed: [updateGist]
    settles normally after its one request, with the failure on the error
    log and no success line. *)
Theorem updateGist_swallows_write_failure
  (env : Env) (remote : Remote) (stats : option WakaTimeStats)
  (fn text : string) (e : exn) :
  render env stats = Ok text ->
  github_patch remote (gist_url env)
    [(fn, {| patch_filename := None; patch_content := text |})] = Throw e ->
  updateGist env remote stats fn =
    (Ok tt,
     [Request (content_write env fn text);
      Console (log_error_line ("Failed to update gist: " ++ message e))]).
Proof.
  intros Hr Hp. unfold updateGist, lift, try_catch, bind, await.
  rewrite Hr, Hp. reflexivity.
Qed.

Lemma updateGist_swallows_write_failure_witness :
  render default_env None = Ok "No WakaTime stats available"
  /\ settled (updateGist default_env read_only_gist_remote None "stats.txt") =
       Ok tt.
Proof.
  split; [reflexivity|].
  exact (f_equal fst (updateGist_swallows_write_failure
                        default_env read_only_gist_remote None "stats.txt"
                        "No WakaTime stats available" network_error
                        eq_refl eq_refl)).
Defined.

(** X6. Rendering happens before the request and outside the [try] of
    [updateGist]: when the content cannot be rendered, [updateGist] throws
    the same exception without a request, the handler of [main] logs the
    failed operation, and the run has issued nothing beyond the requests of
    the two fetches. *)
Theorem rendering_failure_reaches_main
  (env : Env) (remote : Remote) (stats : option WakaTimeStats)
  (fn : string) (e : exn) :
  settled (fetchWakaTimeStats env remote) = Ok stats ->
  settled (fetchGistFilename env remote) = Ok fn ->
  render env stats = Throw e ->
  updateGist env remote stats fn = (Throw e, [])
  /\ In (Console (log_error_line ("Operation failed: " ++ message e)))
        (events (main env remote))
  /\ requests_of (events (main env remote)) =
       GET (getWakaTimeEndpoint (timeRange_of env)) (wakatime_headers env)
         :: requests_of (events (fetchGistFilename env remote)).
Proof.
  intros H1 H2 Hr. split.
  { unfold updateGist, lift, bind. now rewrite Hr. }
  destruct (fetchWakaTimeStats_settles env remote) as [stats' [t1 [Hf Hreq]]].
  rewrite Hf in H1. cbn in H1. injection H1 as ->.
  destruct (fetchGistFilename env remote) as [r t2] eqn:Hg.
  cbn in H2. subst r.
  rewrite (main_run env remote stats t1 t2 (Ok fn) Hf Hg), Hr.
  cbn [events snd]. split.
  - right. apply in_or_app. right. apply in_or_app. right. right. now left.
  - change (?x :: ?l) with ([x] ++ l)%list at 1.
    rewrite !requests_of_app, Hreq. cbn. now rewrite app_nil_r.
Qed.

Lemma rendering_failure_reaches_main_witness :
  settled (fetchWakaTimeStats odd_style_env titled_gist_remote) =
    Ok (Some two_languages)
  /\ settled (fetchGistFilename odd_style_env titled_gist_remote) =
       Ok "☕ Last 7 Days Coding Stats"
  /\ render odd_style_env (Some two_languages) =
       Throw (Exn TypeError
                "Cannot read properties of undefined (reading 'blocks')")
  /\ requests_of (events (main odd_style_env titled_gist_remote)) =
       [GET "https://wakatime.com/api/v1/users/current/stats/last_7_days"
            (wakatime_headers odd_style_env);
        GET "https://api.github.com/gists/8f1c" (github_headers odd_style_env)].
Proof.
  split; [reflexivity|]. split; [reflexivity|]. split; [reflexivity|].
  exact (proj2 (proj2 (rendering_failure_reaches_main
                         odd_style_env titled_gist_remote (Some two_languages)
                         "☕ Last 7 Days Coding Stats" _
                         eq_refl eq_refl eq_refl))).
Defined.

(** X7. No run rejects, whatever the environment and the remote services
    do.  Its requests are, in order: the [GET] of the stats endpoint, the
    [GET] of the gist, at most one rename of a file to the title of the time
    range, and at most one content write, filed under that title. *)
Theorem main_never_rejects (env : Env) (remote : Remote) :
  settled (main env remote) = Ok tt
  /\ (inherited (timeRange_of env) = false ->
      let title := getGistTitle (timeRange_of env) in
      exists renames writes,
        requests_of (events (main env remote)) =
          (GET (getWakaTimeEndpoint (timeRange_of env)) (wakatime_headers env)
             :: GET (gist_url env) (github_headers env)
             :: renames ++ writes)%list
        /\ (renames = [] \/
            exists key text,
              key <> title /\
              renames =
                [PATCH (gist_url env)
                   [(key, {| patch_filename := Some title;
                             patch_content := text |})]
                   (github_headers env)])
        /\ (writes = [] \/
            exists text, writes = [content_write env title text])).
Proof.
  destruct (fetchWakaTimeStats_settles env remote) as [stats [t1 [Hs Hreq]]].
  destruct (fetchGistFilename_shape env remote)
    as [r [t2 [renames [Hl [Hr [Hreq2 Hrn]]]]]].
  rewrite (main_run env remote stats t1 t2 r Hs Hl).
  split; [reflexivity|]. intros _ title. cbn [events snd].
  change (?x :: ?l) with ([x] ++ l)%list at 1.
  rewrite !requests_of_app, Hreq, Hreq2. cbn [requests_of flat_map app].
  exists renames.
  destruct Hr as [->|[msg ->]].
  - destruct (render env stats) as [text|e].
    + exists [content_write env title text]. cbn.
      split; [reflexivity|]. split; [exact Hrn | right; eauto].
    + exists []. cbn. split; [reflexivity|]. split; [exact Hrn | now left].
  - exists []. cbn. split; [reflexivity|]. split; [exact Hrn | now left].
Qed.

(** ** Durations *)

Lemma Qfloor_unique (x : Q) (k : Z) :
  inject_Z k <= x -> x < inject_Z (k + 1) -> Qfloor x = k.
Proof.
  intros Hlo Hhi.
  pose proof (Qfloor_le x) as H1. pose proof (Qlt_floor x) as H2.
  assert (Ha : (Qfloor x < k + 1)%Z).
  { rewrite Zlt_Qlt. eapply Qle_lt_trans; eauto. }
  assert (Hb : (k < Qfloor x + 1)%Z).
  { rewrite Zlt_Qlt. eapply Qle_lt_trans; eauto. }
  lia.
Qed.

(** The floor of [x / d] for a whole divisor [d > 0] is the quotient of the
    floor of [x] by [d]. *)
Lemma Qfloor_div_whole (x : Q) (d : positive) :
  Qfloor (x / inject_Z (Zpos d)) = (Qfloor x / Zpos d)%Z.
Proof.
  apply Qfloor_unique.
  - pose proof (Qfloor_le x) as Hx.
    assert (Hk : (Zpos d * (Qfloor x / Zpos d) <= Qfloor x)%Z)
      by (apply Z.mul_div_le; lia).
    rewrite Zle_Qle, inject_Z_mult in Hk.
    apply Qle_shift_div_l; [reflexivity|].
    rewrite Qmult_comm. eapply Qle_trans; eauto.
  - pose proof (Qlt_floor x) as Hx.
    assert (Hk : (Qfloor x + 1 <= Zpos d * (Qfloor x / Zpos d + 1))%Z).
    { pose proof (Z.mul_succ_div_gt (Qfloor x) (Zpos d) ltac:(lia)). lia. }
    rewrite Zle_Qle, inject_Z_mult in Hk.
    apply Qlt_shift_div_r; [reflexivity|].
    rewrite Qmult_comm. eapply Qlt_le_trans; eauto.
Qed.

Lemma js_rem_whole (x : Q) (d : positive) :
  0 <= x ->
  Qfloor (js_rem x (inject_Z (Zpos d))) = (Qfloor x mod Zpos d)%Z.
Proof.
  intros Hx. unfold js_rem, Qtrunc.
  assert (H0 : 0 <= x / inject_Z (Zpos d)).
  { apply Qle_shift_div_l; [reflexivity|]. now rewrite Qmult_0_l. }
  rewrite (Qsgn_nonnegative _ H0), Qfloor_div_whole.
  set (k := (Qfloor x / Zpos d)%Z).
  apply Qfloor_unique.
  - pose proof (Qfloor_le x) as H1.
    rewrite (Z.mod_eq (Qfloor x) (Zpos d)) by discriminate. fold k.
    unfold Z.sub. rewrite inject_Z_plus, inject_Z_opp, inject_Z_mult.
    revert H1. generalize (inject_Z (Qfloor x)), (inject_Z (Zpos d) * inject_Z k).
    intros a b H1. lra.
  - pose proof (Qlt_floor x) as H1.
    rewrite (Z.mod_eq (Qfloor x) (Zpos d)) by discriminate. fold k.
    replace (Qfloor x - Zpos d * k + 1)%Z with (Qfloor x + 1 - Zpos d * k)%Z by lia.
    unfold Z.sub. rewrite inject_Z_plus, inject_Z_opp, inject_Z_mult.
    revert H1. generalize (inject_Z (Qfloor x + 1)), (inject_Z (Zpos d) * inject_Z k).
    intros a b H1. lra.
Qed.

(** For a non-negative number of seconds, whole or not, the text is built
    from the whole seconds alone. *)
Lemma formatDuration_nonneg (q : Q) :
  0 <= q ->
  formatDuration q =
    duration_text (Qfloor q / 3600) ((Qfloor q mod 3600) / 60).
Proof.
  intros Hq. rewrite formatDuration_parts. unfold Math_floor.
  change 3600 with (inject_Z 3600). change 60 with (inject_Z 60).
  rewrite !Qfloor_div_whole, js_rem_whole by exact Hq. reflexivity.
Qed.

(** The duration text is a function of the whole minutes. *)
Lemma formatDuration_minutes (q : Q) :
  0 <= q ->
  let m := Qfloor (q / 60) in
  formatDuration q = duration_text (m / 60) (m mod 60)
  /\ (0 <= m mod 60 < 60)%Z
  /\ formatDuration (inject_Z (60 * m)) = formatDuration q.
Proof.
  intros Hq m.
  assert (Hm : m = (Qfloor q / 60)%Z).
  { unfold m. change 60 with (inject_Z 60). apply Qfloor_div_whole. }
  assert (Hz : (0 <= Qfloor q)%Z).
  { change 0%Z with (Qfloor 0). now apply Qfloor_resp_le. }
  assert (Hh : (Qfloor q / 3600 = m / 60)%Z)
    by (rewrite Hm; Z.to_euclidean_division_equations; lia).
  assert (Hr : ((Qfloor q mod 3600) / 60 = m mod 60)%Z)
    by (rewrite Hm; Z.to_euclidean_division_equations; lia).
  assert (Hf : formatDuration q = duration_text (m / 60) (m mod 60)).
  { rewrite (formatDuration_nonneg q Hq). now rewrite Hh, Hr. }
  assert (H0 : (0 <= m)%Z)
    by (rewrite Hm; Z.to_euclidean_division_equations; lia).
  split; [exact Hf|]. split; [Z.to_euclidean_division_equations; lia|].
  rewrite Hf, formatDuration_nonneg.
  - rewrite Qfloor_Z. f_equal; Z.to_euclidean_division_equations; lia.
  - change 0 with (inject_Z 0). rewrite <- Zle_Qle. lia.
Qed.

(** X8. For a non-negative number of seconds below 2^53, whole or
    fractional, the duration text depends on the whole minutes
    [m = floor (seconds / 60)] alone: it shows [m / 60] hours and
    [m mod 60] minutes, so the minutes shown are below 60 and the seconds
    beyond the last whole minute change nothing. *)
Theorem formatDuration_whole_minutes (q : Q) :
  0 <= q ->
  q < double_exact_bound ->
  let m := Qfloor (q / 60) in
  formatDuration q = duration_text (m / 60) (m mod 60)
  /\ (0 <= m mod 60 < 60)%Z
  /\ formatDuration (inject_Z (60 * m)) = formatDuration q.
Proof.
  intros Hq _. exact (formatDuration_minutes q Hq).
Qed.

Lemma formatDuration_whole_minutes_witness :
  0 <= (7379 # 2)
  /\ (7379 # 2) < double_exact_bound
  /\ formatDuration (7379 # 2) = "1 hrs 1 mins"
  /\ formatDuration 3660 = formatDuration (7379 # 2).
Proof.
  assert (H : 0 <= (7379 # 2)) by discriminate.
  assert (Hb : (7379 # 2) < double_exact_bound) by reflexivity.
  split; [exact H|]. split; [exact Hb|]. split; [reflexivity|].
  exact (proj2 (proj2 (formatDuration_whole_minutes (7379 # 2) H Hb))).
Defined.

Lemma below_hundred (P : Z -> Prop) :
  Forall P (map Z.of_nat (seq 0 100)) ->
  forall z, (0 <= z < 100)%Z -> P z.
Proof.
  intros H z Hz. rewrite Forall_forall in H. apply H.
  rewrite <- (Z2Nat.id z) by lia. apply in_map, in_seq. lia.
Qed.

Lemma two_digits (z : Z) :
  (0 <= z < 100)%Z -> (String.length (Z_toString z) <= 2)%nat.
Proof.
  revert z.
  apply (below_hundred (fun z => (String.length (Z_toString z) <= 2)%nat)).
  apply Forall_forall. intros z Hz.
  assert (Hb : forallb (fun z => (String.length (Z_toString z) <=? 2)%nat)
                       (map Z.of_nat (seq 0 100)) = true) by (vm_compute; reflexivity).
  rewrite forallb_forall in Hb. apply Nat.leb_le. now apply Hb.
Qed.

(** X9. Below one hundred hours the duration text has at most fourteen
    characters, so the duration column of a line is exactly fourteen wide;
    from one hundred hours on the text can be longer and then pushes the bar
    to the right. *)
Theorem duration_column_width (q : Q) :
  0 <= q -> q < 360000 ->
  (String.length (formatDuration q) <= 14)%nat
  /\ String.length (padEnd 14 (formatDuration q)) = 14%nat
  /\ String.length (padEnd 14 (formatDuration 363540)) = 15%nat.
Proof.
  intros Hq Hlt.
  assert (Hlen : (String.length (formatDuration q) <= 14)%nat).
  { destruct (formatDuration_minutes q Hq) as [Hf [Hm _]].
    set (m := Qfloor (q / 60)) in *.
    assert (Hh : (0 <= m / 60 < 100)%Z).
    { assert (H0 : (0 <= m)%Z).
      { change 0%Z with (Qfloor 0). apply Qfloor_resp_le.
        apply Qle_shift_div_l; [reflexivity | now rewrite Qmult_0_l]. }
      assert (H1 : (m < 6000)%Z).
      { rewrite Zlt_Qlt. eapply Qle_lt_trans; [apply Qfloor_le|].
        apply Qlt_shift_div_r; [reflexivity | exact Hlt]. }
      Z.to_euclidean_division_equations; lia. }
    pose proof (two_digits (m / 60) Hh) as L1.
    pose proof (two_digits (m mod 60) ltac:(lia)) as L2.
    rewrite Hf. unfold duration_text, duration_parts.
    destruct (m / 60 =? 0)%Z, (m mod 60 =? 0)%Z; cbn [app join];
      rewrite ?length_append; cbn [String.length]; lia. }
  split; [exact Hlen|]. split; [rewrite padEnd_length; lia | reflexivity].
Qed.

Lemma duration_column_width_witness :
  0 <= 359999 /\ 359999 < 360000
  /\ String.length (padEnd 14 (formatDuration 359999)) = 14%nat.
Proof.
  assert (H0 : 0 <= 359999) by discriminate.
  assert (H1 : 359999 < 360000) by reflexivity.
  split; [exact H0|]. split; [exact H1|].
  exact (proj1 (proj2 (duration_column_width 359999 H0 H1))).
Defined.

(** ** Bars *)






(** X11. Under a recognised style the number of filled glyphs grows with the
    percentage: of two percentages in [0, 100] the larger never draws fewer
    filled glyphs, and both bars have the style's block count of glyphs. *)
Theorem createProgressBar_monotone
  (env : Env) (style : ProgressStyle) (p q : Q) :
  selected_style env = Some style ->
  0 <= p -> p <= q -> q <= 100 ->
  exists m n,
    createProgressBar env (Fin p) = Ok (bar_of style m)
    /\ createProgressBar env (Fin q) = Ok (bar_of style n)
    /\ (0 <= m <= n)%Z /\ (n <= blocks style)%Z.
Proof.
  intros Hs H0 Hpq H1.
  pose proof (selected_style_cases env style Hs) as Hc.
  set (m := round_half_up (p / 100 * inject_Z (blocks style))).
  set (n := round_half_up (q / 100 * inject_Z (blocks style))).
  assert (Hm : (0 <= m <= blocks style)%Z).
  { destruct (scaled_percentage_bounds style p Hc) as [Ha Hb]; [split; lra|].
    now apply round_half_up_bounds. }
  assert (Hn : (0 <= n <= blocks style)%Z).
  { destruct (scaled_percentage_bounds style q Hc) as [Ha Hb]; [split; lra|].
    now apply round_half_up_bounds. }
  assert (Hmn : (m <= n)%Z).
  { unfold m, n, round_half_up. apply Qfloor_resp_le.
    destruct Hc as [ -> | [ -> | -> ] ];
      cbn [blocks style_arrow style_hash style_default];
      unfold inject_Z, Qdiv; change (/ 100) with (1 # 100); lra. }
  exists m, n. split; [now apply createProgressBar_count|].
  split; [now apply createProgressBar_count|]. lia.
Qed.

Lemma createProgressBar_monotone_witness :
  selected_style hash_env = Some style_hash
  /\ 0 <= 10 /\ 10 <= 40 /\ 40 <= 100
  /\ exists m n,
      createProgressBar hash_env (Fin 10) = Ok (bar_of style_hash m)
      /\ createProgressBar hash_env (Fin 40) = Ok (bar_of style_hash n)
      /\ (0 <= m <= n)%Z /\ (n <= blocks style_hash)%Z.
Proof.
  assert (H0 : 0 <= 10) by discriminate.
  assert (H1 : 10 <= 40) by discriminate.
  assert (H2 : 40 <= 100) by discriminate.
  split; [reflexivity|]. repeat (split; [assumption|]).
  exact (createProgressBar_monotone hash_env style_hash 10 40 eq_refl H0 H1 H2).
Defined.

(** ** Selecting the style *)

Lemma to_lower_ascii_idempotent (c : ascii) :
  to_lower_ascii (to_lower_ascii c) = to_lower_ascii c.
Proof. destruct c as [[] [] [] [] [] [] [] []]; reflexivity. Qed.

Lemma toLowerCase_idempotent (s : string) :
  toLowerCase (toLowerCase s) = toLowerCase s.
Proof.
  induction s as [|c s IH]; simpl; [reflexivity|].
  now rewrite to_lower_ascii_idempotent, IH.
Qed.

(** X12. The style selector is read without regard to letter case: two
    environments whose selectors differ only in the case of ASCII letters
    select the same style and draw the same bar; in particular a selector
    selects what its lower-case form selects. *)
Theorem style_selector_ignores_case
  (env env' : Env) (s s' : string) (p : number) :
  PROGRESS_STYLE env = Some s ->
  PROGRESS_STYLE env' = Some s' ->
  toLowerCase s = toLowerCase s' ->
  selected_style env = selected_style env'
  /\ createProgressBar env p = createProgressBar env' p
  /\ (forall lowered,
        PROGRESS_STYLE lowered = Some (toLowerCase s) ->
        selected_style lowered = selected_style env).
Proof.
  intros H1 H2 He.
  assert (Hs : selected_style env = selected_style env').
  { unfold selected_style. rewrite H1, H2. cbn [option_map]. now rewrite He. }
  assert (Hk : style_key env = style_key env').
  { unfold style_key. rewrite H1, H2. cbn [option_map]. now rewrite He. }
  split; [exact Hs|]. split.
  - unfold createProgressBar. now rewrite Hs, Hk.
  - intros lowered Hl. unfold selected_style. rewrite H1, Hl.
    cbn [option_map]. now rewrite toLowerCase_idempotent.
Qed.

Lemma style_selector_ignores_case_witness :
  PROGRESS_STYLE (sample_env None (Some "Arrow")) = Some "Arrow"
  /\ PROGRESS_STYLE (sample_env None (Some "ARROW")) = Some "ARROW"
  /\ toLowerCase "Arrow" = toLowerCase "ARROW"
  /\ selected_style (sample_env None (Some "Arrow")) =
       selected_style (sample_env None (Some "ARROW")).
Proof.
  repeat (split; [reflexivity|]).
  exact (proj1 (style_selector_ignores_case
                  (sample_env None (Some "Arrow")) (sample_env None (Some "ARROW"))
                  "Arrow" "ARROW" NaN eq_refl eq_refl eq_refl)).
Defined.

Lemma mapR_first_throw {A B} (f : A -> result B) (x : A) (xs : list A) (e : exn) :
  f x = Throw e -> mapR f (x :: xs) = Throw e.
Proof. intros H. simpl. now rewrite H. Qed.

(** X13. With a style selector that names no style, every percentage makes
    [createProgressBar] throw the same [TypeError]: on reading 'blocks' of
    [undefined], or, when the lowered selector is a name inherited from
    [Object.prototype], on reading 'repeat' of the missing glyph.
    [formatStats] throws it for every snapshot that has a language and
    still returns the empty text for a snapshot that has none. *)
Theorem unrecognised_style_throws (env : Env) (stats : WakaTimeStats) :
  selected_style env = None ->
  let error :=
    Exn TypeError
        (if inherited (style_key env) then
           "Cannot read properties of undefined (reading 'repeat')"
         else
           "Cannot read properties of undefined (reading 'blocks')") in
  (forall p, createProgressBar env p = Throw error)
  /\ (languages stats <> [] -> formatStats env stats = Throw error)
  /\ (languages stats = [] -> formatStats env stats = Ok "")
  /\ exists s,
      PROGRESS_STYLE env = Some s /\ s <> ""
      /\ ~ In (toLowerCase s) ["arrow"; "hash"; "default"].
Proof.
  intros Hs error.
  assert (Hbar : forall p, createProgressBar env p = Throw error).
  { intros p. unfold createProgressBar. now rewrite Hs. }
  split; [exact Hbar|]. split; [|split].
  - intros Hne. unfold formatStats.
    destruct (languages stats) as [|l ls]; [congruence|].
    cbn [firstn]. rewrite (mapR_first_throw _ l _ error); [reflexivity|].
    unfold formatLine. now rewrite Hbar.
  - intros Hnil. unfold formatStats. now rewrite Hnil.
  - unfold selected_style in Hs.
    destruct (PROGRESS_STYLE env) as [s|]; [|discriminate Hs].
    exists s. split; [reflexivity|]. cbn in Hs.
    destruct s as [|c s]; [discriminate Hs|]. split; [discriminate|].
    cbn [toLowerCase] in *.
    change (String (to_lower_ascii c) (toLowerCase s) =? "") with false in Hs.
    unfold PROGRESS_STYLES in Hs.
    destruct (String (to_lower_ascii c) (toLowerCase s) =? "arrow") eqn:E1;
      [discriminate Hs|].
    destruct (String (to_lower_ascii c) (toLowerCase s) =? "hash") eqn:E2;
      [discriminate Hs|].
    destruct (String (to_lower_ascii c) (toLowerCase s) =? "default") eqn:E3;
      [discriminate Hs|].
    apply String.eqb_neq in E1, E2, E3.
    intros [H|[H|[H|[]]]]; congruence.
Qed.

Lemma unrecognised_style_throws_witness :
  selected_style odd_style_env = None
  /\ formatStats odd_style_env two_languages =
       Throw (Exn TypeError
                "Cannot read properties of undefined (reading 'blocks')")
  /\ createProgressBar (sample_env None (Some "Constructor")) (Fin 50) =
       Throw (Exn TypeError
                "Cannot read properties of undefined (reading 'repeat')").
Proof.
  split; [reflexivity|]. split.
  - apply (proj1 (proj2 (unrecognised_style_throws odd_style_env two_languages
                           eq_refl))).
    discriminate.
  - exact (proj1 (unrecognised_style_throws
                    (sample_env None (Some "Constructor")) two_languages
                    eq_refl) (Fin 50)).
Defined.

(** ** Percentages *)

Lemma sum_seconds_zero (ls : list Language) :
  (forall l, In l ls -> total_seconds l == 0) -> sum_seconds ls == 0.
Proof.
  induction ls as [|x ls IH]; intros H; simpl; [reflexivity|].
  rewrite (H x) by now left.
  rewrite IH by (intros l Hl; apply H; now right). reflexivity.
Qed.

Lemma Qsgn_zero (q : Q) : q == 0 -> Qsgn q = 0%Z.
Proof.
  unfold Qeq, Qsgn. simpl. intros H.
  rewrite Z.mul_1_r in H. now rewrite H.
Qed.

Lemma formatStats_all_zero
  (env : Env) (style : ProgressStyle) (stats : WakaTimeStats) :
  selected_style env = Some style ->
  (forall l, In l (languages stats) -> total_seconds l == 0) ->
  formatStats env stats =
    Ok (join newline
          (map (fun l => padEnd 10 (name l) ++ " " ++ padEnd 14 "0 mins" ++ " " ++
                         "" ++ "  " ++ "NaN" ++ "%")
               (firstn 5 (languages stats)))).
Proof.
  intros Hs Hz. unfold formatStats.
  assert (Ht : Qsgn (total_of stats) = 0%Z).
  { apply Qsgn_zero. rewrite total_of_sum. now apply sum_seconds_zero. }
  rewrite (mapR_pure _ (fun l => padEnd 10 (name l) ++ " " ++
                                 padEnd 14 "0 mins" ++ " " ++
                                 "" ++ "  " ++ "NaN" ++ "%")).
  - reflexivity.
  - intros l Hl. apply In_firstn in Hl. specialize (Hz l Hl).
    unfold formatLine.
    assert (Hp : percentage_of stats l = NaN).
    { unfold percentage_of, js_div. rewrite Ht, (Qsgn_zero _ Hz). reflexivity. }
    rewrite Hp.
    assert (Hd : formatDuration (total_seconds l) = "0 mins").
    { rewrite formatDuration_nonneg by (rewrite Hz; discriminate).
      rewrite (Qfloor_comp _ 0 Hz). reflexivity. }
    rewrite Hd. unfold createProgressBar. rewrite Hs. reflexivity.
Qed.

(** X14. A snapshot whose languages all have zero seconds divides zero by
    zero: under a recognised style each of its first five entries is rendered
    with the duration "0 mins", an empty bar and the percentage text "NaN",
    and nothing is thrown. *)
Theorem all_zero_snapshot_renders_NaN
  (env : Env) (style : ProgressStyle) (stats : WakaTimeStats) :
  selected_style env = Some style ->
  (forall l, In l (languages stats) -> total_seconds l == 0) ->
  formatStats env stats =
    Ok (join newline
          (map (fun l => padEnd 10 (name l) ++ " " ++ padEnd 14 "0 mins" ++ " " ++
                         "" ++ "  " ++ "NaN" ++ "%")
               (firstn 5 (languages stats)))).
Proof. exact (formatStats_all_zero env style stats). Qed.

Lemma all_zero_snapshot_renders_NaN_witness :
  selected_style default_env = Some style_default
  /\ (forall l, In l (languages all_idle) -> total_seconds l == 0)
  /\ formatStats default_env all_idle =
       Ok ("Go         0 mins           NaN%" ++ newline ++
           "Rust       0 mins           NaN%").
Proof.
  assert (Hz : forall l, In l (languages all_idle) -> total_seconds l == 0).
  { intros l [<-|[<-|[]]]; reflexivity. }
  split; [reflexivity|]. split; [exact Hz|].
  exact (all_zero_snapshot_renders_NaN default_env style_default all_idle
           eq_refl Hz).
Defined.





(** ** Endpoints and titles *)

Lemma append_cancel_l (p a b : string) : p ++ a = p ++ b -> a = b.
Proof.
  induction p as [|c p IH]; simpl; intros H; [exact H|].
  injection H as H. now apply IH.
Qed.

(** X16. Different time ranges never share an endpoint: the range can be
    read back from the URL, whether or not it is one of the four documented
    values. *)
Theorem getWakaTimeEndpoint_injective (r1 r2 : string) :
  getWakaTimeEndpoint r1 = getWakaTimeEndpoint r2 -> r1 = r2.
Proof.
  unfold getWakaTimeEndpoint, endpoints_summaries, endpoints_stats.
  destruct (r1 =? "yesterday") eqn:E1, (r2 =? "yesterday") eqn:E2; intros H.
  - apply String.eqb_eq in E1, E2. congruence.
  - apply append_cancel_l in H. discriminate H.
  - apply append_cancel_l in H. discriminate H.
  - apply append_cancel_l in H. now apply (append_cancel_l "/stats/") in H.
Qed.

Lemma getWakaTimeEndpoint_injective_witness :
  getWakaTimeEndpoint "last_year" =
    "https://wakatime.com/api/v1/users/current/stats/last_year"
  /\ "last_year" = "last_year".
Proof.
  split; [reflexivity|].
  exact (getWakaTimeEndpoint_injective "last_year" "last_year" eq_refl).
Defined.

(** X17. Every range that is not a name inherited from [Object.prototype]
    has a title among the four of [GIST_TITLES]; such a range that is not a
    key of the table gets the title of 'last_7_days'; and on the four keys
    different ranges have different titles. *)
Theorem getGistTitle_total (range : string) :
  inherited range = false ->
  In (getGistTitle range) gist_titles
  /\ (~ In range time_ranges ->
      getGistTitle range = "☕ Last 7 Days Coding Stats")
  /\ (forall other,
        In range time_ranges -> In other time_ranges ->
        getGistTitle range = getGistTitle other -> range = other).
Proof.
  intros _. split; [|split].
  - unfold getGistTitle, GIST_TITLES, gist_titles.
    repeat match goal with
           | |- context [if ?b then _ else _] => destruct b
           end; cbn; auto.
  - intros Hn. unfold getGistTitle, GIST_TITLES.
    destruct (range =? "yesterday") eqn:E1;
      [apply String.eqb_eq in E1; subst; exfalso; apply Hn; cbn; auto|].
    destruct (range =? "last_7_days") eqn:E2; [reflexivity|].
    destruct (range =? "last_30_days") eqn:E3;
      [apply String.eqb_eq in E3; subst; exfalso; apply Hn; cbn; auto|].
    destruct (range =? "last_year") eqn:E4;
      [apply String.eqb_eq in E4; subst; exfalso; apply Hn; cbn; auto|].
    reflexivity.
  - intros other Hr Ho.
    cbn in Hr, Ho.
    repeat (destruct Hr as [<-|Hr]); try contradiction;
      repeat (destruct Ho as [<-|Ho]); try contradiction;
      intros H; try reflexivity; discriminate H.
Qed.

Lemma getGistTitle_total_witness :
  inherited "last_week" = false
  /\ In (getGistTitle "last_week") gist_titles
  /\ getGistTitle "last_week" = "☕ Last 7 Days Coding Stats".
Proof.
  split; [reflexivity|].
  split; [exact (proj1 (getGistTitle_total "last_week" eq_refl))|].
  apply (proj1 (proj2 (getGistTitle_total "last_week" eq_refl))).
  intros [H|[H|[H|[H|[]]]]]; discriminate H.
Defined.

(** ** The earlier script and the present one *)

Lemma mapR_ext {A B} (f g : A -> result B) (xs : list A) :
  (forall x, f x = g x) -> mapR f xs = mapR g xs.
Proof.
  intros H. induction xs as [|x xs IH]; simpl; [reflexivity|].
  now rewrite H, IH.
Qed.

Lemma legacy_bar (env : Env) (p : number) :
  selected_style env = Some style_default ->
  Legacy.createProgressBar p = createProgressBar env p.
Proof.
  intros Hs. unfold Legacy.createProgressBar, createProgressBar.
  now rewrite Hs.
Qed.

Lemma legacy_render (env : Env) (stats : option WakaTimeStats) :
  selected_style env = Some style_default ->
  Legacy.render stats = render env stats.
Proof.
  intros Hs. destruct stats as [s|]; [|reflexivity].
  unfold Legacy.render, render, Legacy.formatStats, formatStats.
  rewrite (mapR_ext (Legacy.formatLine s) (formatLine env s)); [reflexivity|].
  intros l. unfold Legacy.formatLine, formatLine.
  now rewrite (legacy_bar env _ Hs).
Qed.

(** X18. The configurable bar and table extend the earlier ones: whenever
    the default style is selected, [createProgressBar] and [formatStats]
    return, for every input, what the earlier script returned. *)
Theorem default_style_is_the_earlier_bar (env : Env) :
  selected_style env = Some style_default ->
  (forall p, createProgressBar env p = Legacy.createProgressBar p)
  /\ (forall stats, formatStats env stats = Legacy.formatStats stats).
Proof.
  intros Hs. split.
  - intros p. symmetry. now apply legacy_bar.
  - intros stats. symmetry.
    exact (legacy_render env (Some stats) Hs).
Qed.

Lemma default_style_is_the_earlier_bar_witness :
  selected_style (sample_env (Some "last_year") (Some "DEFAULT")) =
    Some style_default
  /\ formatStats (sample_env (Some "last_year") (Some "DEFAULT")) six_languages =
       Legacy.formatStats six_languages.
Proof.
  split; [reflexivity|].
  exact (proj2 (default_style_is_the_earlier_bar
                  (sample_env (Some "last_year") (Some "DEFAULT")) eq_refl)
               six_languages).
Defined.

(** X19. The earlier locator only reads: it never issues a [PATCH], and for
    a gist whose first key is not empty it returns that key as it found it. *)
Theorem legacy_locator_only_reads (env : Env) (remote : Remote) :
  requests_of (events (Legacy.fetchGistFilename env remote)) =
    [GET (gist_url env) (github_headers env)]
  /\ forall data key file rest,
       github_get remote (gist_url env) = Ok data ->
       files data = (key, file) :: rest ->
       key <> "" ->
       settled (Legacy.fetchGistFilename env remote) = Ok key.
Proof.
  unfold Legacy.fetchGistFilename, try_catch, bind, await. split.
  - destruct (github_get remote (gist_url env)) as [data|e]; [|reflexivity].
    destruct (files data) as [|[key file] rest]; [reflexivity|].
    cbn [hd_error option_map fst]. destruct (key =? ""); reflexivity.
  - intros data key file rest Hg Hf Hk. rewrite Hg, Hf.
    cbn [hd_error option_map fst]. now rewrite (eqb_nonempty key Hk).
Qed.

Lemma legacy_main_run (env : Env) (remote : Remote)
  (stats : option WakaTimeStats) (t1 t2 : list event) (fn : string) :
  Legacy.fetchWakaTimeStats env remote = (Ok stats, t1) ->
  Legacy.fetchGistFilename env remote = (Ok fn, t2) ->
  settled (Legacy.main env remote) = Ok tt
  /\ requests_of (events (Legacy.main env remote)) =
       (requests_of t1 ++ requests_of t2 ++
        match Legacy.render stats with
        | Ok text => [content_write env fn text]
        | Throw _ => []
        end)%list.
Proof.
  intros H1 H2. unfold Legacy.main, try_catch, bind, emit. rewrite H1, H2.
  unfold Legacy.updateGist, lift, try_catch, bind, await, emit.
  destruct (Legacy.render stats) as [text|e].
  - destruct (github_patch remote (gist_url env) _) as [[]|e];
      (split; [reflexivity|]); cbn [events snd app];
      change (?x :: ?l) with ([x] ++ l)%list at 1;
      rewrite !requests_of_app; cbn; now rewrite ?app_nil_r.
  - split; [reflexivity|]. cbn [events snd app].
    change (?x :: ?l) with ([x] ++ l)%list at 1.
    rewrite !requests_of_app. cbn. now rewrite ?app_nil_r.
Qed.

(** X20. Upgrading changes nothing for a gist that already carries the
    default title: with the time range resolving to 'last_7_days' and the
    default style selected, a run of the present script settles like a run of
    the earlier script against the same services and issues the same
    requests in the same order. *)
Theorem same_requests_as_the_earlier_script
  (env : Env) (remote : Remote) (data : GistResponse)
  (file : GistFile) (rest : list (string * GistFile)) :
  timeRange_of env = "last_7_days" ->
  selected_style env = Some style_default ->
  github_get remote (gist_url env) = Ok data ->
  files data = ("☕ Last 7 Days Coding Stats", file) :: rest ->
  settled (main env remote) = settled (Legacy.main env remote)
  /\ requests_of (events (main env remote)) =
       requests_of (events (Legacy.main env remote)).
Proof.
  intros Hr Hs Hg Hf.
  assert (Hl : fetchGistFilename env remote =
               (Ok "☕ Last 7 Days Coding Stats",
                [Request (GET (gist_url env) (github_headers env))])).
  { unfold fetchGistFilename, try_catch, bind, await. rewrite Hg, Hf, Hr.
    reflexivity. }
  assert (Hl' : Legacy.fetchGistFilename env remote =
                (Ok "☕ Last 7 Days Coding Stats",
                 [Request (GET (gist_url env) (github_headers env))])).
  { unfold Legacy.fetchGistFilename, try_catch, bind, await. rewrite Hg, Hf.
    reflexivity. }
  assert (Hw : exists stats t1 t1',
             fetchWakaTimeStats env remote = (Ok stats, t1)
             /\ Legacy.fetchWakaTimeStats env remote = (Ok stats, t1')
             /\ requests_of t1 = requests_of t1').
  { unfold fetchWakaTimeStats, Legacy.fetchWakaTimeStats, wakatime_get,
      try_catch, bind, await. rewrite Hr.
    change (getWakaTimeEndpoint "last_7_days") with Legacy.stats_url.
    cbn [String.eqb Ascii.eqb Bool.eqb].
    destruct (wakatime_stats remote Legacy.stats_url) as [d|e];
      cbn; eauto 6. }
  destruct Hw as [stats [t1 [t1' [Hw [Hw' Hreq]]]]].
  destruct (legacy_main_run env remote stats t1' _ _ Hw' Hl') as [Hs' Hq'].
  rewrite Hs', Hq', (main_run env remote stats t1 _ _ Hw Hl).
  split; [reflexivity|]. cbn [events snd].
  change (?x :: ?l) with ([x] ++ l)%list at 1.
  rewrite !requests_of_app, Hreq, (legacy_render env stats Hs).
  destruct (render env stats) as [text|e]; reflexivity.
Qed.

Lemma same_requests_as_the_earlier_script_witness :
  timeRange_of default_env = "last_7_days"
  /\ selected_style default_env = Some style_default
  /\ github_get titled_gist_remote (gist_url default_env) =
       Ok (one_file "☕ Last 7 Days Coding Stats" "old text")
  /\ requests_of (events (main default_env titled_gist_remote)) =
       requests_of (events (Legacy.main default_env titled_gist_remote)).
Proof.
  repeat (split; [reflexivity|]).
  exact (proj2 (same_requests_as_the_earlier_script
                  default_env titled_gist_remote
                  (one_file "☕ Last 7 Days Coding Stats" "old text")
                  {| filename := "☕ Last 7 Days Coding Stats";
                     content := "old text" |} []
                  eq_refl eq_refl eq_refl eq_refl)).
Defined.

(** ** Remaining cases of the fetch and of the table *)

(** X21. For every range other than 'yesterday', recognised or not, the
    fetch goes to the stats endpoint of that very range and, when the request
    succeeds, hands on the [data] of the response unchanged. *)
Theorem fetchWakaTimeStats_aggregate
  (env : Env) (remote : Remote) (response : WakaTimeResponse) :
  timeRange_of env <> "yesterday" ->
  wakatime_stats remote
    ("https://wakatime.com/api/v1/users/current/stats/" ++ timeRange_of env) =
    Ok response ->
  fetchWakaTimeStats env remote =
    (Ok (Some (stats_data response)),
     [Request
        (GET ("https://wakatime.com/api/v1/users/current/stats/" ++ timeRange_of env)
             (wakatime_headers env))]).
Proof.
  intros Hr Hs. apply String.eqb_neq in Hr.
  unfold fetchWakaTimeStats, wakatime_get, getWakaTimeEndpoint. rewrite Hr.
  change (endpoints_stats (timeRange_of env))
    with ("https://wakatime.com/api/v1/users/current/stats/" ++ timeRange_of env).
  rewrite Hs. reflexivity.
Qed.

Lemma fetchWakaTimeStats_aggregate_witness :
  timeRange_of odd_range_env <> "yesterday"
  /\ fetchWakaTimeStats odd_range_env titled_gist_remote =
       (Ok (Some two_languages),
        [Request
           (GET "https://wakatime.com/api/v1/users/current/stats/last_week"
                (wakatime_headers odd_range_env))]).
Proof.
  assert (H : timeRange_of odd_range_env <> "yesterday")
    by (apply String.eqb_neq; reflexivity).
  split; [exact H|].
  exact (fetchWakaTimeStats_aggregate odd_range_env titled_gist_remote
           {| stats_data := two_languages |} H eq_refl).
Defined.

Lemma sum_seconds_all_zero (ls : list Language) :
  (forall l, In l ls -> 0 <= total_seconds l) ->
  sum_seconds ls == 0 ->
  forall l, In l ls -> total_seconds l == 0.
Proof.
  intros Hnn Hz l Hl.
  destruct (sum_seconds_bounds ls Hnn) as [_ Hle].
  specialize (Hle l Hl). specialize (Hnn l Hl). lra.
Qed.

Lemma mapR_length {A B} (f : A -> result B) (xs : list A) (ys : list B) :
  mapR f xs = Ok ys -> length ys = length xs.
Proof.
  revert ys. induction xs as [|x xs IH]; simpl; intros ys H.
  - now inversion H.
  - destruct (f x) as [y|e]; simpl in H; [|discriminate].
    destruct (mapR f xs) as [ys'|e]; simpl in H; [|discriminate].
    inversion H. simpl. now rewrite (IH ys').
Qed.

(** X22. Under a recognised style, a snapshot of non-negative seconds never
    makes [formatStats] throw, whether its total is positive or zero; the
    text is empty for a snapshot without languages and otherwise ends with a
    percent sign. *)
Theorem formatStats_never_throws_on_nonnegative
  (env : Env) (style : ProgressStyle) (stats : WakaTimeStats) :
  selected_style env = Some style ->
  (forall l, In l (languages stats) -> 0 <= total_seconds l) ->
  exists text,
    formatStats env stats = Ok text
    /\ (languages stats = [] -> text = "")
    /\ (languages stats <> [] -> last_char text = Some "%"%char).
Proof.
  intros Hs Hnn.
  assert (Hok : exists text, formatStats env stats = Ok text).
  { destruct (sum_seconds_bounds _ Hnn) as [H0 _].
    destruct (Qlt_le_dec 0 (sum_seconds (languages stats))) as [Hpos|Hle].
    - eexists. exact (formatStats_rendered env style stats Hs Hnn Hpos).
    - eexists. apply (formatStats_all_zero env style stats Hs).
      apply sum_seconds_all_zero; [exact Hnn | lra]. }
  destruct Hok as [text Hf]. exists text. split; [exact Hf|]. split.
  - intros Hnil. unfold formatStats in Hf. rewrite Hnil in Hf.
    cbn in Hf. now inversion Hf.
  - intros Hne. unfold formatStats in Hf.
    destruct (mapR (formatLine env stats) (firstn 5 (languages stats)))
      as [lines|e] eqn:E; cbn in Hf; inversion Hf.
    apply join_last_char.
    + eapply mapR_Forall; [|exact E].
      intros x y. apply formatLine_ends_with_percent.
    + apply mapR_length in E. intros ->.
      destruct (languages stats); [congruence | discriminate E].
Qed.

Lemma formatStats_never_throws_on_nonnegative_witness :
  selected_style default_env = Some style_default
  /\ (forall l, In l (languages all_idle) -> 0 <= total_seconds l)
  /\ exists text, formatStats default_env all_idle = Ok text.
Proof.
  assert (Hnn : forall l, In l (languages all_idle) -> 0 <= total_seconds l).
  { intros l [<-|[<-|[]]]; discriminate. }
  split; [reflexivity|]. split; [exact Hnn|].
  destruct (formatStats_never_throws_on_nonnegative
              default_env style_default all_idle eq_refl Hnn) as [text [H _]].
  exists text. exact H.
Defined.
